(** * HabitGrid: the state store and the derived views

    A shallow embedding of [src/App.tsx] (the [App] component: load effect,
    habit and entry handlers, monthly grid) and of [components/HabitStats.tsx]
    (30-day trend, journal, completion rate), with the properties of the
    specification stated and proved over it.

    Conventions of the embedding.
    - A JavaScript string is a Rocq [string]; [===] on strings is
      [String.eqb].
    - The [number] fields of the data model ([targetTime], [timeSpent]) hold
      integer minutes: the handlers only ever store the result of [parseInt].
      They are integers ([Z]).  Arithmetic that leaves the integers (the
      percentages) is carried out in IEEE-754 binary64, as JavaScript does,
      on the executable specification [SpecFloat] of the Standard Library.
    - A [Date] is its time value, milliseconds since the epoch, read in a
      local zone without offset changes.
    - The system clock ([new Date()], [startOfToday()], [isToday]) is the
      environment of a reader monad [Clock].
    - React state cells are the fields of the record [AppState]; a handler
      is a function from the state before the event to the state after it. *)

From Stdlib Require Import ZArith List Bool Lia String Ascii.
From Stdlib Require Import Sorting.Permutation Sorting.Sorted.
From Stdlib Require Import Floats.SpecFloat.
Import ListNotations.

Open Scope string_scope.
Open Scope list_scope.
Open Scope Z_scope.

(* ================================================================= *)
(** ** JavaScript numbers and strings *)

Module Js.

(** Binary64 values. *)
Definition number : Type := spec_float.

Definition prec : Z := 53.
Definition emax : Z := 1024.

(** The Number value of a mathematical integer (round to nearest, ties to
    even; exact below 2^53). *)
Definition of_Z (z : Z) : number := binary_normalize prec emax z 0 false.

Definition div (x y : number) : number := SFdiv prec emax x y.
Definition mul (x y : number) : number := SFmul prec emax x y.

(** [Math.round]: the integer closest to [x], ties towards +infinity;
    NaN, the infinities and the zeros are returned as they are, and a
    negative [x >= -0.5] gives [-0]. *)
Definition Math_round (x : number) : number :=
  match x with
  | S754_finite s m e =>
      if 0 <=? e then x
      else
        let k := - e in
        let sm := if s then Z.neg m else Z.pos m in
        let n := (2 * sm + 2 ^ k) / 2 ^ (k + 1) in
        if n =? 0 then S754_zero s else of_Z n
  | _ => x
  end.

(** The integer a number stands for, when it is one. *)
Definition to_Z (x : number) : option Z :=
  match x with
  | S754_zero _ => Some 0
  | S754_finite s m e =>
      if 0 <=? e then Some ((if s then Z.neg m else Z.pos m) * 2 ^ e)
      else
        let d := 2 ^ (- e) in
        if Z.pos m mod d =? 0
        then Some ((if s then Z.neg m else Z.pos m) / d)
        else None
  | _ => None
  end.

(** White space that [parseInt] and [trim] strip (the code units below
    128 of StrWhiteSpaceChar). *)
Definition isWhiteSpace (c : ascii) : bool :=
  let n := nat_of_ascii c in
  (Nat.eqb n 9 || Nat.eqb n 10 || Nat.eqb n 11 || Nat.eqb n 12
   || Nat.eqb n 13 || Nat.eqb n 32)%bool.

Fixpoint trimStart (s : string) : string :=
  match s with
  | String c r => if isWhiteSpace c then trimStart r else s
  | EmptyString => EmptyString
  end.

Fixpoint trimEnd (s : string) : string :=
  match s with
  | String c r =>
      let r' := trimEnd r in
      if (isWhiteSpace c && String.eqb r' "")%bool then "" else String c r'
  | EmptyString => EmptyString
  end.

Definition trim (s : string) : string := trimEnd (trimStart s).

(** The value of a digit in radixes up to 36. *)
Definition digitValue (c : ascii) : option Z :=
  let n := Z.of_nat (nat_of_ascii c) in
  if (48 <=? n) && (n <=? 57) then Some (n - 48)
  else if (97 <=? n) && (n <=? 122) then Some (n - 87)
  else if (65 <=? n) && (n <=? 90) then Some (n - 55)
  else None.

(** The longest prefix of radix-[R] digits, as an integer; [acc] is [None]
    until a digit has been read. *)
Fixpoint parseDigits (R : Z) (s : string) (acc : option Z) : option Z :=
  match s with
  | String c r =>
      match digitValue c with
      | Some d =>
          if d <? R
          then parseDigits R r
                 (Some (match acc with Some a => a * R + d | None => d end))
          else acc
      | None => acc
      end
  | EmptyString => acc
  end.

(** [parseInt(string)] with no radix argument.  [None] is NaN.  The
    result is the mathematical integer read; [-0] is [0]. *)
Definition parseInt (input : string) : option Z :=
  let S0 := trimStart input in
  let '(sign, S1) :=
    match S0 with
    | String "-" r => (-1, r)
    | String "+" r => (1, r)
    | _ => (1, S0)
    end in
  let '(R, S2) :=
    match S1 with
    | String "0" (String "x" r) => (16, r)
    | String "0" (String "X" r) => (16, r)
    | _ => (10, S1)
    end in
  match parseDigits R S2 None with
  | Some m => Some (sign * m)
  | None => None
  end.

(** Decimal digits of a non-negative integer, most significant first. *)
Definition digitChar (d : Z) : ascii := ascii_of_nat (Z.to_nat (48 + d)).

Fixpoint digitsFrom (fuel : nat) (n : Z) (acc : string) : string :=
  match fuel with
  | O => acc
  | S f =>
      let acc' := String (digitChar (n mod 10)) acc in
      if n <? 10 then acc' else digitsFrom f (n / 10) acc'
  end.

(** [n.toString()] for an integer [n >= 0]. *)
Definition toDecimal (n : Z) : string :=
  digitsFrom (S (Z.to_nat (Z.log2 n))) n "".

Fixpoint repeat0 (k : nat) : string :=
  match k with
  | O => ""
  | S k' => String "0" (repeat0 k')
  end.

(** [padStart(targetLength, '0')]. *)
Definition padStart0 (s : string) (targetLength : nat) : string :=
  repeat0 (targetLength - String.length s) ++ s.

End Js.

(* ================================================================= *)
(** ** Dates ([Date] and the functions of date-fns the program calls) *)

Module DateFns.

(** The time value of a [Date]: milliseconds since the epoch. *)
Definition Date : Type := Z.

Definition msPerDay : Z := 86400000.

(** The number of the calendar day an instant falls on. *)
Definition dayNumber (d : Date) : Z := d / msPerDay.

(** Calendar fields of a day number (proleptic Gregorian calendar; day 0
    is 1970-01-01). *)
Definition civilFromDays (z0 : Z) : Z * Z * Z :=
  let z := z0 + 719468 in
  let era := z / 146097 in
  let doe := z - era * 146097 in
  let yoe := (doe - doe / 1460 + doe / 36524 - doe / 146096) / 365 in
  let y := yoe + era * 400 in
  let doy := doe - (365 * yoe + yoe / 4 - yoe / 100) in
  let mp := (5 * doy + 2) / 153 in
  let d := doy - (153 * mp + 2) / 5 + 1 in
  let m := if mp <? 10 then mp + 3 else mp - 9 in
  (if m <=? 2 then y + 1 else y, m, d).

Definition daysFromCivil (y0 m d : Z) : Z :=
  let y := if m <=? 2 then y0 - 1 else y0 in
  let era := y / 400 in
  let yoe := y - era * 400 in
  let doy := (153 * (if 2 <? m then m - 3 else m + 9) + 2) / 5 + d - 1 in
  let doe := yoe * 365 + yoe / 4 - yoe / 100 + doy in
  era * 146097 + doe - 719468.

Definition getFullYear (d : Date) : Z :=
  let '(y, _, _) := civilFromDays (dayNumber d) in y.
(** 1 to 12. *)
Definition getMonth1 (d : Date) : Z :=
  let '(_, m, _) := civilFromDays (dayNumber d) in m.
Definition getDate (d : Date) : Z :=
  let '(_, _, dd) := civilFromDays (dayNumber d) in dd.

Definition startOfDay (d : Date) : Date := dayNumber d * msPerDay.

Definition startOfMonth (d : Date) : Date :=
  daysFromCivil (getFullYear d) (getMonth1 d) 1 * msPerDay.

(** Midnight of the last day of the month of [d]. *)
Definition lastDayOfMonth (d : Date) : Date :=
  let y := getFullYear d in
  let m := getMonth1 d in
  let next := if m =? 12 then daysFromCivil (y + 1) 1 1
              else daysFromCivil y (m + 1) 1 in
  (next - 1) * msPerDay.

(** Every day from the day of [start] to the day of [end_], at midnight. *)
Definition eachDayOfInterval (start end_ : Date) : list Date :=
  let first := dayNumber start in
  map (fun k => (first + Z.of_nat k) * msPerDay)
      (seq 0 (Z.to_nat (dayNumber end_ - first + 1))).

(** [subDays] moves the calendar day and keeps the time of day. *)
Definition subDays (d : Date) (amount : Z) : Date := d - amount * msPerDay.

Definition isBefore (d dateToCompare : Date) : bool := d <? dateToCompare.

Definition isSameDay (a b : Date) : bool := startOfDay a =? startOfDay b.

Definition addLeadingZeros (n : Z) (targetLength : nat) : string :=
  let output := Js.padStart0 (Js.toDecimal (Z.abs n)) targetLength in
  if n <? 0 then "-" ++ output else output.

(** The token [yyyy]. *)
Definition formatYear (d : Date) : string :=
  let signedYear := getFullYear d in
  addLeadingZeros (if 0 <? signedYear then signedYear else 1 - signedYear) 4.

(** The token [MMM] (abbreviated month of the default locale). *)
Definition monthAbbr (m : Z) : string :=
  nth (Z.to_nat (m - 1))
    ["Jan"; "Feb"; "Mar"; "Apr"; "May"; "Jun";
     "Jul"; "Aug"; "Sep"; "Oct"; "Nov"; "Dec"] "".

(** [format(d, 'yyyy-MM-dd')] *)
Definition format_yyyy_MM_dd (d : Date) : string :=
  formatYear d ++ "-" ++ addLeadingZeros (getMonth1 d) 2
    ++ "-" ++ addLeadingZeros (getDate d) 2.

(** [format(d, 'MMM dd')] *)
Definition format_MMM_dd (d : Date) : string :=
  monthAbbr (getMonth1 d) ++ " " ++ addLeadingZeros (getDate d) 2.

(** [format(d, 'dd')] *)
Definition format_dd (d : Date) : string := addLeadingZeros (getDate d) 2.

(** [format(d, 'MMM yyyy')] *)
Definition format_MMM_yyyy (d : Date) : string :=
  monthAbbr (getMonth1 d) ++ " " ++ formatYear d.

(** [parseISO] on the calendar-date form [YYYY-MM-DD], the form in which
    the program writes entry dates; any other text is an invalid date
    ([None]).  The other ISO 8601 forms are not modelled. *)
Definition twoDigits (a b : ascii) : option Z :=
  match Js.digitValue a, Js.digitValue b with
  | Some x, Some y => if (x <? 10) && (y <? 10) then Some (x * 10 + y) else None
  | _, _ => None
  end.

Definition daysInMonth (y m : Z) : Z :=
  (if m =? 12 then daysFromCivil (y + 1) 1 1 else daysFromCivil y (m + 1) 1)
  - daysFromCivil y m 1.

Definition parseISO (s : string) : option Date :=
  match s with
  | String y1 (String y2 (String y3 (String y4 (String "-"
      (String m1 (String m2 (String "-" (String d1 (String d2 EmptyString))))))))) =>
      match twoDigits y1 y2, twoDigits y3 y4, twoDigits m1 m2, twoDigits d1 d2 with
      | Some yh, Some yl, Some m, Some d =>
          let y := yh * 100 + yl in
          if (1 <=? m) && (m <=? 12) && (1 <=? d) && (d <=? daysInMonth y m)
          then Some (daysFromCivil y m d * msPerDay)
          else None
      | _, _, _, _ => None
      end
  | _ => None
  end.

(** [compareDesc]: -1 when the first date is after the second, 1 when it
    is before, 0 when equal.  With an invalid date the result is NaN, which
    [Array.prototype.sort] reads as 0. *)
Definition compareDesc (a b : option Date) : Z :=
  match a, b with
  | Some x, Some y => if y <? x then -1 else if x <? y then 1 else 0
  | _, _ => 0
  end.

(** *** The system clock *)

(** A computation that may read the clock. *)
Definition Clock (A : Type) : Type := Date -> A.

Definition ret {A} (a : A) : Clock A := fun _ => a.
Definition bind {A B} (m : Clock A) (k : A -> Clock B) : Clock B :=
  fun now => k (m now) now.

(** [new Date()] *)
Definition new_Date : Clock Date := fun now => now.

(** [startOfToday()] *)
Definition startOfToday : Clock Date :=
  bind new_Date (fun now => ret (startOfDay now)).

(** [isToday(d)] *)
Definition isToday (d : Date) : Clock bool :=
  bind new_Date (fun now => ret (isSameDay d now)).

End DateFns.

Notation "x <- m ;; k" := (DateFns.bind m (fun x => k))
  (at level 61, m at next level, right associativity).

Import DateFns.

(* ================================================================= *)
(** ** The data model ([types.ts]) *)

(** ['done' | 'failed' | 'none'] *)
Inductive HabitStatus : Type := StatusDone | StatusFailed | StatusNone.

Definition HabitStatus_eqb (a b : HabitStatus) : bool :=
  match a, b with
  | StatusDone, StatusDone | StatusFailed, StatusFailed
  | StatusNone, StatusNone => true
  | _, _ => false
  end.

Record Habit : Type := mkHabit {
  id : string;
  name : string;
  targetTime : Z;          (* in minutes *)
  color : option string
}.

Record HabitEntry : Type := mkEntry {
  habitId : string;
  date : string;           (* YYYY-MM-DD *)
  status : HabitStatus;
  timeSpent : Z;           (* in minutes *)
  notes : option string
}.

(* ================================================================= *)
(** ** JSON text ([JSON.parse]) *)

Module Json.

#[local] Set Warnings "-register-all".

(** A JSON string value is its sequence of UTF-16 code units; the
    characters of a source text are the code units below 256. *)
Definition jstring : Type := list N.

Definition jstring_of (s : string) : jstring :=
  map N_of_ascii (list_ascii_of_string s).

Definition jstring_eqb (a b : jstring) : bool :=
  if list_eq_dec N.eq_dec a b then true else false.

Inductive value : Type :=
| JNull
| JBool (b : bool)
| JNum (lexeme : string)
| JStr (s : jstring)
| JArr (elements : list value)
| JObj (members : list (jstring * value)).

Inductive token : Type :=
| TLBrace | TRBrace | TLBrack | TRBrack | TColon | TComma
| TStr (s : jstring) | TNum (lexeme : string)
| TTrue | TFalse | TNull.

(** *** Numbers: an optional minus sign; an integer part, either the
    digit 0 or a non-zero digit followed by digits; an optional fraction, a
    point and at least one digit; an optional exponent, e or E, an optional
    sign and at least one digit. *)

Definition isDigit (c : ascii) : bool :=
  let n := nat_of_ascii c in (Nat.leb 48 n && Nat.leb n 57)%bool.

Definition isNumberChar (c : ascii) : bool :=
  (isDigit c || Ascii.eqb c "-" || Ascii.eqb c "+" || Ascii.eqb c "."
   || Ascii.eqb c "e" || Ascii.eqb c "E")%bool.

Fixpoint dropDigits (s : string) : string :=
  match s with
  | String c r => if isDigit c then dropDigits r else s
  | EmptyString => EmptyString
  end.

(** At least one digit, then the rest. *)
Definition digits1 (s : string) : option string :=
  match s with
  | String c r => if isDigit c then Some (dropDigits r) else None
  | EmptyString => None
  end.

Definition validExponent (s : string) : bool :=
  match s with
  | EmptyString => true
  | String c r =>
      if (Ascii.eqb c "e" || Ascii.eqb c "E")%bool then
        let r' := match r with
                  | String "+" t => t
                  | String "-" t => t
                  | _ => r
                  end in
        match digits1 r' with
        | Some EmptyString => true
        | _ => false
        end
      else false
  end.

Definition validFraction (s : string) : bool :=
  match s with
  | String "." r =>
      match digits1 r with
      | Some t => validExponent t
      | None => false
      end
  | _ => validExponent s
  end.

Definition validNumber (lexeme : string) : bool :=
  let s := match lexeme with String "-" r => r | _ => lexeme end in
  match s with
  | String "0" r => validFraction r
  | String c r => if isDigit c then validFraction (dropDigits r) else false
  | EmptyString => false
  end.

(** *** The lexer: one pass over the text *)

Inductive lstate : Type :=
| LDefault
| LStr (acc : jstring)
| LEsc (acc : jstring)
| LUni (acc : jstring) (remaining : nat) (code : N)
| LNum (lexeme : string)
| LLit (expected : string) (t : token).

Definition dquote : ascii := "034"%char.

Definition isJsonWhiteSpace (c : ascii) : bool :=
  let n := nat_of_ascii c in
  (Nat.eqb n 32 || Nat.eqb n 9 || Nat.eqb n 10 || Nat.eqb n 13)%bool.

Definition hexValue (c : ascii) : option N :=
  match Js.digitValue c with
  | Some d => if d <? 16 then Some (Z.to_N d) else None
  | None => None
  end.

(** A character met between tokens. *)
Definition lexDefault (c : ascii) : option (list token * lstate) :=
  if isJsonWhiteSpace c then Some ([], LDefault)
  else if Ascii.eqb c "{" then Some ([TLBrace], LDefault)
  else if Ascii.eqb c "}" then Some ([TRBrace], LDefault)
  else if Ascii.eqb c "[" then Some ([TLBrack], LDefault)
  else if Ascii.eqb c "]" then Some ([TRBrack], LDefault)
  else if Ascii.eqb c ":" then Some ([TColon], LDefault)
  else if Ascii.eqb c "," then Some ([TComma], LDefault)
  else if Ascii.eqb c dquote then Some ([], LStr [])
  else if Ascii.eqb c "t" then Some ([], LLit "rue" TTrue)
  else if Ascii.eqb c "f" then Some ([], LLit "alse" TFalse)
  else if Ascii.eqb c "n" then Some ([], LLit "ull" TNull)
  else if (Ascii.eqb c "-" || isDigit c)%bool
       then Some ([], LNum (String c EmptyString))
  else None.

Definition lexStep (st : lstate) (c : ascii) : option (list token * lstate) :=
  match st with
  | LDefault => lexDefault c
  | LStr acc =>
      if Ascii.eqb c dquote then Some ([TStr acc], LDefault)
      else if Ascii.eqb c "\" then Some ([], LEsc acc)
      else if Nat.ltb (nat_of_ascii c) 32 then None
      else Some ([], LStr (acc ++ [N_of_ascii c]))
  | LEsc acc =>
      if Ascii.eqb c dquote then Some ([], LStr (acc ++ [34%N]))
      else if Ascii.eqb c "\" then Some ([], LStr (acc ++ [92%N]))
      else if Ascii.eqb c "/" then Some ([], LStr (acc ++ [47%N]))
      else if Ascii.eqb c "b" then Some ([], LStr (acc ++ [8%N]))
      else if Ascii.eqb c "f" then Some ([], LStr (acc ++ [12%N]))
      else if Ascii.eqb c "n" then Some ([], LStr (acc ++ [10%N]))
      else if Ascii.eqb c "r" then Some ([], LStr (acc ++ [13%N]))
      else if Ascii.eqb c "t" then Some ([], LStr (acc ++ [9%N]))
      else if Ascii.eqb c "u" then Some ([], LUni acc 4 0%N)
      else None
  | LUni acc remaining code =>
      match hexValue c with
      | Some h =>
          let code' := (code * 16 + h)%N in
          match remaining with
          | S O | O => Some ([], LStr (acc ++ [code']))
          | S k => Some ([], LUni acc k code')
          end
      | None => None
      end
  | LNum lexeme =>
      if isNumberChar c then Some ([], LNum (lexeme ++ String c EmptyString))
      else if validNumber lexeme then
        match lexDefault c with
        | Some (ts, st') => Some (TNum lexeme :: ts, st')
        | None => None
        end
      else None
  | LLit expected t =>
      match expected with
      | String e EmptyString =>
          if Ascii.eqb c e then Some ([t], LDefault) else None
      | String e r => if Ascii.eqb c e then Some ([], LLit r t) else None
      | EmptyString => None
      end
  end.

(** The end of the text. *)
Definition lexEnd (st : lstate) : option (list token) :=
  match st with
  | LDefault => Some []
  | LNum lexeme => if validNumber lexeme then Some [TNum lexeme] else None
  | _ => None
  end.

Fixpoint lexFrom (st : lstate) (s : string) : option (list token) :=
  match s with
  | EmptyString => lexEnd st
  | String c r =>
      match lexStep st c with
      | Some (ts, st') =>
          match lexFrom st' r with
          | Some rest => Some (ts ++ rest)
          | None => None
          end
      | None => None
      end
  end.

Definition lex (s : string) : option (list token) := lexFrom LDefault s.

(** *** The parser: a stack of the containers that are open *)

Inductive frame : Type :=
| FArr (elements : list value)
| FObj (members : list (jstring * value)) (key : jstring).

Inductive pstate : Type :=
| PValue (first : bool) (stack : list frame)
| PKey (first : bool) (members : list (jstring * value)) (stack : list frame)
| PColon (key : jstring) (members : list (jstring * value)) (stack : list frame)
| PAfter (stack : list frame)
| PDone (v : value).

(** A complete value goes to the innermost open container. *)
Definition deliver (v : value) (stack : list frame) : pstate :=
  match stack with
  | [] => PDone v
  | FArr els :: rest => PAfter (FArr (els ++ [v]) :: rest)
  | FObj ms k :: rest => PAfter (FObj (ms ++ [(k, v)]) k :: rest)
  end.

Definition parseStep (st : pstate) (t : token) : option pstate :=
  match st, t with
  | PValue _ stack, TLBrace => Some (PKey true [] stack)
  | PValue _ stack, TLBrack => Some (PValue true (FArr [] :: stack))
  | PValue true (FArr [] :: rest), TRBrack => Some (deliver (JArr []) rest)
  | PValue _ stack, TStr s => Some (deliver (JStr s) stack)
  | PValue _ stack, TNum l => Some (deliver (JNum l) stack)
  | PValue _ stack, TTrue => Some (deliver (JBool true) stack)
  | PValue _ stack, TFalse => Some (deliver (JBool false) stack)
  | PValue _ stack, TNull => Some (deliver JNull stack)
  | PKey _ ms stack, TStr k => Some (PColon k ms stack)
  | PKey true ms stack, TRBrace => Some (deliver (JObj ms) stack)
  | PColon k ms stack, TColon => Some (PValue false (FObj ms k :: stack))
  | PAfter (FArr els :: rest), TComma => Some (PValue false (FArr els :: rest))
  | PAfter (FArr els :: rest), TRBrack => Some (deliver (JArr els) rest)
  | PAfter (FObj ms _ :: rest), TComma => Some (PKey false ms rest)
  | PAfter (FObj ms _ :: rest), TRBrace => Some (deliver (JObj ms) rest)
  | _, _ => None
  end.

Fixpoint parseTokens (st : pstate) (ts : list token) : option pstate :=
  match ts with
  | [] => Some st
  | t :: rest =>
      match parseStep st t with
      | Some st' => parseTokens st' rest
      | None => None
      end
  end.

(** [JSON.parse(text)]: the value, or [None] when it throws a SyntaxError. *)
Definition parse (text : string) : option value :=
  match lex text with
  | Some ts =>
      match parseTokens (PValue false []) ts with
      | Some (PDone v) => Some v
      | _ => None
      end
  | None => None
  end.

(** The own property [key] of a parsed object: of several members with
    that name the last one stays. *)
Definition member (key : string) (ms : list (jstring * value)) : option value :=
  match find (fun kv => jstring_eqb (fst kv) (jstring_of key)) (rev ms) with
  | Some kv => Some (snd kv)
  | None => None
  end.

End Json.

(* ================================================================= *)
(** ** The [App] component ([App.tsx]) *)

(** The state cells of the component. *)
Record AppState : Type := mkState {
  habits : list Habit;
  entries : list HabitEntry;
  selectedHabitForStats : option Habit;
  isAddingHabit : bool;
  editingEntry : option (string * string);   (* habitId, date *)
  editingHabit : option Habit;
  viewDate : Date
}.

Definition setHabits (v : list Habit) (s : AppState) : AppState :=
  mkState v (entries s) (selectedHabitForStats s) (isAddingHabit s)
          (editingEntry s) (editingHabit s) (viewDate s).
Definition setEntries (v : list HabitEntry) (s : AppState) : AppState :=
  mkState (habits s) v (selectedHabitForStats s) (isAddingHabit s)
          (editingEntry s) (editingHabit s) (viewDate s).
Definition setSelectedHabitForStats (v : option Habit) (s : AppState) : AppState :=
  mkState (habits s) (entries s) v (isAddingHabit s)
          (editingEntry s) (editingHabit s) (viewDate s).
Definition setIsAddingHabit (v : bool) (s : AppState) : AppState :=
  mkState (habits s) (entries s) (selectedHabitForStats s) v
          (editingEntry s) (editingHabit s) (viewDate s).
Definition setEditingEntry (v : option (string * string)) (s : AppState) : AppState :=
  mkState (habits s) (entries s) (selectedHabitForStats s) (isAddingHabit s)
          v (editingHabit s) (viewDate s).
Definition setEditingHabit (v : option Habit) (s : AppState) : AppState :=
  mkState (habits s) (entries s) (selectedHabitForStats s) (isAddingHabit s)
          (editingEntry s) v (viewDate s).
Definition setViewDate (v : Date) (s : AppState) : AppState :=
  mkState (habits s) (entries s) (selectedHabitForStats s) (isAddingHabit s)
          (editingEntry s) (editingHabit s) v.

(** The state of the first render: [useState] initial values, the clock
    read for [viewDate]. *)
Definition initialState : Clock AppState :=
  now <- new_Date ;;
  ret (mkState [] [] None false None None (startOfMonth now)).

(** *** Load data *)

(** A value of the language, as far as the load effect can meet one. *)
Inductive JsValue : Type :=
| Undefined
| Parsed (v : Json.value)
| ArrayPrototypeEntries.     (* the method every array inherits as [entries] *)

Inductive JsError : Type := SyntaxError | TypeError.

(** What the load effect does. *)
Inductive LoadOutcome : Type :=
| SetFromStorage (habits entries : JsValue)  (* setHabits(habits); setEntries(entries) *)
| SetDefaultHabits (habits : list Habit)     (* setHabits([...]); entries stay [[]] *)
| Throws (e : JsError).

Definition defaultHabits : list Habit :=
  [ mkHabit "1" "Exercise" 30 None;
    mkHabit "2" "Reading" 20 None;
    mkHabit "3" "Meditation" 10 None ].

(** [const { habits, entries } = v]: reading a property of [null] throws;
    of a primitive or of an object without the property, gives
    [undefined]. *)
Definition getProperty (v : Json.value) (key : string) : JsValue :=
  match v with
  | Json.JObj ms =>
      match Json.member key ms with
      | Some x => Parsed x
      | None => Undefined
      end
  | Json.JArr _ =>
      if String.eqb key "entries" then ArrayPrototypeEntries else Undefined
  | _ => Undefined
  end.

(** [saved] is [localStorage.getItem(STORAGE_KEY)]: [None] is [null]. *)
Definition loadData (saved : option string) : LoadOutcome :=
  match saved with
  | Some text =>
      if String.eqb text "" then SetDefaultHabits defaultHabits
      else
        match Json.parse text with
        | None => Throws SyntaxError
        | Some Json.JNull => Throws TypeError
        | Some v => SetFromStorage (getProperty v "habits") (getProperty v "entries")
        end
  | None => SetDefaultHabits defaultHabits
  end.

(** *** The days of the month in view *)

Definition days (s : AppState) : list Date :=
  let start := startOfMonth (viewDate s) in
  let end_ := lastDayOfMonth (viewDate s) in
  eachDayOfInterval start end_.

(** *** Handlers *)

(** The fields of a submitted habit form. *)
Record HabitForm : Type := mkForm {
  form_name : string;
  form_targetTime : string
}.

(** [randomId] is [Math.random().toString(36).substr(2, 9)]. *)
Definition handleAddHabit (randomId : string) (form : HabitForm)
    (s : AppState) : AppState :=
  let name := form_name form in
  match Js.parseInt (form_targetTime form) with
  | Some targetTime =>
      if (negb (String.eqb name "") && negb (targetTime =? 0))%bool then
        let newHabit := mkHabit randomId name targetTime None in
        setIsAddingHabit false (setHabits (habits s ++ [newHabit]) s)
      else s
  | None => s
  end.

Definition handleUpdateHabit (form : HabitForm) (s : AppState) : AppState :=
  match editingHabit s with
  | None => s
  | Some editing =>
      let name := form_name form in
      match Js.parseInt (form_targetTime form) with
      | Some targetTime =>
          if (negb (String.eqb name "") && negb (targetTime =? 0))%bool then
            setEditingHabit None
              (setHabits
                 (map (fun h => if String.eqb (id h) (id editing)
                                then mkHabit (id h) name targetTime (color h)
                                else h)
                      (habits s)) s)
          else s
      | None => s
      end
  end.

(** [confirmed] is the answer to [window.confirm]. *)
Definition handleDeleteHabit (confirmed : bool) (id0 : string)
    (s : AppState) : AppState :=
  if confirmed then
    setEditingHabit None
      (setEntries (filter (fun e => negb (String.eqb (habitId e) id0)) (entries s))
         (setHabits (filter (fun h => negb (String.eqb (id h) id0)) (habits s)) s))
  else s.

Definition updateEntry (habitId0 date0 : string) (status0 : HabitStatus)
    (timeSpent0 : Z) (notes0 : option string) (s : AppState) : AppState :=
  let prev := entries s in
  let filtered :=
    filter (fun e => negb (String.eqb (habitId e) habitId0
                           && String.eqb (date e) date0)) prev in
  setEditingEntry None
    (setEntries (filtered ++ [mkEntry habitId0 date0 status0 timeSpent0 notes0]) s).

Definition getEntry (habitId0 date0 : string) (s : AppState) : option HabitEntry :=
  find (fun e => (String.eqb (habitId e) habitId0 && String.eqb (date e) date0)%bool)
       (entries s).

(** *** The monthly grid *)

Inductive Background : Type := BgEmerald | BgRose | BgTransparent.
Inductive TextColor : Type := TextEmerald | TextRose.

(** The two lines of text of a cell: [shown/goal m] and [percent %]. *)
Record CellText : Type := mkCellText {
  textColor : TextColor;
  shown : Z;
  goal : Z;
  percent : Js.number
}.

Record GridCell : Type := mkCell {
  cellHabit : string;
  cellDate : string;
  background : Background;
  notesIcon : bool;
  cellText : option CellText;
  plusHint : bool
}.

Record GridRow : Type := mkRow {
  rowKey : string;
  isCurrentDay : bool;
  dayLabel : string;
  monthLabel : string;
  cells : list GridCell
}.

Definition statusIs (entry : option HabitEntry) (st : HabitStatus) : bool :=
  match entry with
  | Some e => HabitStatus_eqb (status e) st
  | None => false
  end.

Definition isSome {A} (o : option A) : bool :=
  match o with Some _ => true | None => false end.

Definition truthyString (o : option string) : bool :=
  match o with
  | Some t => negb (String.eqb t "")
  | None => false
  end.

Definition percentOfTarget (timeSpent0 targetTime0 : Z) : Js.number :=
  Js.Math_round
    (Js.mul (Js.div (Js.of_Z timeSpent0) (Js.of_Z targetTime0)) (Js.of_Z 100)).

Definition renderCell (s : AppState) (day : Date) (dateStr : string)
    (habit : Habit) : Clock GridCell :=
  let entry := getEntry (id habit) dateStr s in
  today <- startOfToday ;;
  let isPastDay := isBefore day today in
  let isAutoFailed := (isPastDay && negb (isSome entry))%bool in
  ret (mkCell (id habit) dateStr
         (if statusIs entry StatusDone then BgEmerald
          else if (statusIs entry StatusFailed || isAutoFailed)%bool then BgRose
          else BgTransparent)
         (match entry with Some e => truthyString (notes e) | None => false end)
         (if (isSome entry || isAutoFailed)%bool then
            Some (mkCellText
                    (if statusIs entry StatusDone then TextEmerald else TextRose)
                    (match entry with Some e => timeSpent e | None => 0 end)
                    (targetTime habit)
                    (match entry with
                     | Some e => percentOfTarget (timeSpent e) (targetTime habit)
                     | None => Js.of_Z 0
                     end))
          else None)
         (negb (isSome entry))).

(** [xs.map(f)] for an [f] that reads the clock. *)
Fixpoint mapClock {A B} (f : A -> Clock B) (xs : list A) : Clock (list B) :=
  match xs with
  | [] => ret []
  | x :: r => y <- f x ;; ys <- mapClock f r ;; ret (y :: ys)
  end.

Definition renderRow (s : AppState) (day : Date) : Clock GridRow :=
  let dateStr := format_yyyy_MM_dd day in
  isCurrentDay0 <- isToday day ;;
  cs <- mapClock (renderCell s day dateStr) (habits s) ;;
  ret (mkRow dateStr isCurrentDay0 (format_dd day) (format_MMM_yyyy day) cs).

Definition renderGrid (s : AppState) : Clock (list GridRow) :=
  mapClock (renderRow s) (days s).

(* ================================================================= *)
(** ** The [HabitStats] component ([components/HabitStats.tsx]) *)

Module HabitStats.

Record TrendPoint : Type := mkPoint {
  pointDate : string;        (* [date: format(date, 'MMM dd')] *)
  pointTimeSpent : Z;
  pointTarget : Z;
  pointStatus : HabitStatus
}.

(** The body of the loop, for the counter [i]. *)
Definition trendPoint (habit : Habit) (entries0 : list HabitEntry)
    (i : Z) : Clock TrendPoint :=
  now <- new_Date ;;
  let date0 := subDays now i in
  let dateStr := format_yyyy_MM_dd date0 in
  let entry :=
    find (fun e => (String.eqb (habitId e) (id habit)
                    && String.eqb (date e) dateStr)%bool) entries0 in
  ret (mkPoint (format_MMM_dd date0)
         (match entry with
          | Some e => if timeSpent e =? 0 then 0 else timeSpent e
          | None => 0
          end)
         (targetTime habit)
         (match entry with Some e => status e | None => StatusNone end)).

(** [for (let i = 29; i >= 0; i--)], entered with [i = n - 1]: the
    iterations that remain are those of [n - 1] down to [0]. *)
Fixpoint last30DaysLoop (habit : Habit) (entries0 : list HabitEntry)
    (n : nat) (days0 : list TrendPoint) : Clock (list TrendPoint) :=
  match n with
  | O => ret days0
  | S i =>
      p <- trendPoint habit entries0 (Z.of_nat i) ;;
      last30DaysLoop habit entries0 i (days0 ++ [p])
  end.

Definition last30Days (habit : Habit) (entries0 : list HabitEntry)
    : Clock (list TrendPoint) :=
  last30DaysLoop habit entries0 30 [].

(** [Array.prototype.sort] with a comparator: a stable sort. *)
Fixpoint insertSorted {A} (cmp : A -> A -> Z) (x : A) (l : list A) : list A :=
  match l with
  | [] => [x]
  | y :: r => if 0 <? cmp y x then x :: y :: r else y :: insertSorted cmp x r
  end.

Definition sortBy {A} (cmp : A -> A -> Z) (l : list A) : list A :=
  fold_left (fun acc x => insertSorted cmp x acc) l [].

Definition journalEntries (habit : Habit) (entries0 : list HabitEntry)
    : list HabitEntry :=
  sortBy (fun a b => compareDesc (parseISO (date a)) (parseISO (date b)))
    (filter (fun e =>
               (String.eqb (habitId e) (id habit)
                && match notes e with
                   | Some t => negb (String.eqb t "")
                               && negb (String.eqb (Js.trim t) "")
                   | None => false
                   end)%bool)
            entries0).

Definition completionRate (habit : Habit) (entries0 : list HabitEntry)
    : Js.number :=
  let habitEntries :=
    filter (fun e => String.eqb (habitId e) (id habit)) entries0 in
  if Nat.eqb (List.length habitEntries) 0 then Js.of_Z 0
  else
    let done :=
      List.length (filter (fun e => HabitStatus_eqb (status e) StatusDone)
                     habitEntries) in
    Js.Math_round
      (Js.mul (Js.div (Js.of_Z (Z.of_nat done))
                      (Js.of_Z (Z.of_nat (List.length habitEntries))))
              (Js.of_Z 100)).

(** What one render of the component computes. *)
Record View : Type := mkView {
  viewTrend : list TrendPoint;
  viewJournal : list HabitEntry;
  viewCompletionRate : Js.number;
  viewTotalEntries : nat
}.

Definition render (habit : Habit) (entries0 : list HabitEntry) : Clock View :=
  trend <- last30Days habit entries0 ;;
  ret (mkView trend (journalEntries habit entries0)
         (completionRate habit entries0)
         (List.length (filter (fun e => String.eqb (habitId e) (id habit))
                         entries0))).

End HabitStats.

(* ================================================================= *)
(** ** The events of the store *)

Inductive Action : Type :=
| AddHabit (randomId : string) (form : HabitForm)
| UpdateHabit (form : HabitForm)
| DeleteHabit (confirmed : bool) (id0 : string)
| UpsertEntry (habitId0 date0 : string) (status0 : HabitStatus)
              (timeSpent0 : Z) (notes0 : option string)
| SelectHabitForStats (h : option Habit)
| SetAdding (b : bool)
| EditEntry (target : option (string * string))
| EditHabit (h : option Habit)
| ViewMonth (d : Date).

Definition step (a : Action) (s : AppState) : AppState :=
  match a with
  | AddHabit randomId form => handleAddHabit randomId form s
  | UpdateHabit form => handleUpdateHabit form s
  | DeleteHabit confirmed id0 => handleDeleteHabit confirmed id0 s
  | UpsertEntry h d st t n => updateEntry h d st t n s
  | SelectHabitForStats h => setSelectedHabitForStats h s
  | SetAdding b => setIsAddingHabit b s
  | EditEntry target => setEditingEntry target s
  | EditHabit h => setEditingHabit h s
  | ViewMonth d => setViewDate d s
  end.

(** The states the events lead to from [s0]. *)
Inductive reachable (s0 : AppState) : AppState -> Prop :=
| reach_start : reachable s0 s0
| reach_step : forall s a, reachable s0 s -> reachable s0 (step a s).

(** The composite identity of an entry. *)
Definition entryKey (e : HabitEntry) : string * string := (habitId e, date e).

(** No two entries share both [habitId] and [date]. *)
Definition uniqueKeys (es : list HabitEntry) : Prop := NoDup (map entryKey es).

(** The test of [getEntry] and [updateEntry]. *)
Definition forKey (habitId0 date0 : string) (e : HabitEntry) : bool :=
  (String.eqb (habitId e) habitId0 && String.eqb (date e) date0)%bool.

(** How many elements pass a test. *)
Fixpoint countIf {A} (p : A -> bool) (l : list A) : nat :=
  match l with
  | [] => O
  | x :: r => ((if p x then 1 else 0) + countIf p r)%nat
  end.

(** A computation whose result is the same whatever the clock shows. *)
Definition ignoresClock {A} (m : Clock A) : Prop := forall t1 t2, m t1 = m t2.

(* ================================================================= *)
(** ** The month in view ([App.tsx], the buttons of the header) *)

(** The time of day of an instant, in milliseconds. *)
Definition timeOfDay (d : Date) : Z := d - startOfDay d.

(** [addMonths]: the same day of the month, [amount] months later, or the
    last day of that month when it is shorter; the time of day stays. *)
Definition addMonths (d : Date) (amount : Z) : Date :=
  let dayOfMonth := getDate d in
  let months := getFullYear d * 12 + (getMonth1 d - 1) + amount in
  let y := months / 12 in
  let m := months mod 12 + 1 in
  let daysInTarget := daysInMonth y m in
  let day := if daysInTarget <=? dayOfMonth then daysInTarget else dayOfMonth in
  daysFromCivil y m day * msPerDay + timeOfDay d.

Definition subMonths (d : Date) (amount : Z) : Date := addMonths d (- amount).

Definition isSameMonth (a b : Date) : bool :=
  ((getFullYear a =? getFullYear b) && (getMonth1 a =? getMonth1 b))%bool.

(** The button "Previous Month": [setViewDate(prev => subMonths(prev, 1))]. *)
Definition showPreviousMonth (s : AppState) : AppState :=
  setViewDate (subMonths (viewDate s) 1) s.

(** The button "Next Month": [setViewDate(prev => addMonths(prev, 1))]. *)
Definition showNextMonth (s : AppState) : AppState :=
  setViewDate (addMonths (viewDate s) 1) s.

(** The button "Today": it changes the month in view unless that is the
    month of the clock already, in which case it only scrolls. *)
Definition showToday (s : AppState) : Clock AppState :=
  today <- new_Date ;;
  ret (if negb (isSameMonth (viewDate s) today)
       then setViewDate (startOfMonth today) s
       else s).

(* ================================================================= *)
(** ** The entry dialog ([App.tsx], "Log Progress") *)

(** [String(n)] for an integer [n] below 10^21 in absolute value. *)
Definition numberText (n : Z) : string :=
  if n <? 0 then "-" ++ Js.toDecimal (- n) else Js.toDecimal n.

(** A click on the cell of [habit] and [day]. *)
Definition clickCell (habit : Habit) (day : Date) (s : AppState) : AppState :=
  setEditingEntry (Some (id habit, format_yyyy_MM_dd day)) s.



(** [onClick] of the buttons "Complete Session" and "Failed Session";
    [customTime] and [entryNotes] are the values of the two fields when the
    button is pressed.  The dialog is there only while [editingEntry] is
    set. *)
Definition logSession (status0 : HabitStatus) (customTime entryNotes : string)
    (s : AppState) : AppState :=
  match editingEntry s with
  | Some (habitId0, date0) =>
      let val :=
        match Js.parseInt customTime with
        | Some v => if v =? 0 then 0 else v
        | None => 0
        end in
      updateEntry habitId0 date0 status0 val (Some entryNotes) s
  | None => s
  end.

Definition completeSession : string -> string -> AppState -> AppState :=
  logSession StatusDone.
Definition failedSession : string -> string -> AppState -> AppState :=
  logSession StatusFailed.

(* ================================================================= *)
(** ** Saving the state ([App.tsx], "Save data"; [JSON.stringify]) *)

Definition hexDigit (n : Z) : ascii :=
  if n <? 10 then Js.digitChar n else ascii_of_nat (Z.to_nat (87 + n)).

(** How [JSON.stringify] writes one character of a string. *)
Definition quoteChar (c : ascii) : string :=
  let n := Z.of_nat (nat_of_ascii c) in
  if n =? 8 then "\b"
  else if n =? 9 then "\t"
  else if n =? 10 then "\n"
  else if n =? 12 then "\f"
  else if n =? 13 then "\r"
  else if n =? 34 then String "\" (String Json.dquote "")
  else if n =? 92 then "\\"
  else if n <? 32
       then "\u00" ++ String (hexDigit (n / 16)) (String (hexDigit (n mod 16)) "")
  else String c "".

Fixpoint quoteBody (s : string) : string :=
  match s with
  | String c r => quoteChar c ++ quoteBody r
  | EmptyString => ""
  end.

Definition quoteJSON (s : string) : string :=
  String Json.dquote (quoteBody s ++ String Json.dquote "").

Definition statusText (st : HabitStatus) : string :=
  match st with
  | StatusDone => "done"
  | StatusFailed => "failed"
  | StatusNone => "none"
  end.

(** A property whose value is [undefined] is left out. *)
Definition optionalProperty (key : string) (v : option string) (rest : string)
    : string :=
  match v with
  | Some t => "," ++ quoteJSON key ++ ":" ++ quoteJSON t ++ rest
  | None => rest
  end.

(** The properties in the order in which the program creates them. *)
Definition stringifyHabit (h : Habit) (rest : string) : string :=
  "{" ++ quoteJSON "id" ++ ":" ++ quoteJSON (id h)
      ++ "," ++ quoteJSON "name" ++ ":" ++ quoteJSON (name h)
      ++ "," ++ quoteJSON "targetTime" ++ ":" ++ numberText (targetTime h)
      ++ optionalProperty "color" (color h) ("}" ++ rest)%string.

Definition stringifyEntry (e : HabitEntry) (rest : string) : string :=
  "{" ++ quoteJSON "habitId" ++ ":" ++ quoteJSON (habitId e)
      ++ "," ++ quoteJSON "date" ++ ":" ++ quoteJSON (date e)
      ++ "," ++ quoteJSON "status" ++ ":" ++ quoteJSON (statusText (status e))
      ++ "," ++ quoteJSON "timeSpent" ++ ":" ++ numberText (timeSpent e)
      ++ optionalProperty "notes" (notes e) ("}" ++ rest)%string.

(** The elements of an array, with commas between them, before [rest]. *)
Fixpoint stringifyElements {A} (f : A -> string -> string) (l : list A)
    (rest : string) : string :=
  match l with
  | [] => rest
  | [x] => f x rest
  | x :: r => f x ("," ++ stringifyElements f r rest)%string
  end.

Definition stringifyArray {A} (f : A -> string -> string) (l : list A)
    (rest : string) : string :=
  "[" ++ stringifyElements f l ("]" ++ rest)%string.

(** [JSON.stringify({ habits, entries })], the text the save effect
    writes. *)
Definition saveData (s : AppState) : string :=
  "{" ++ quoteJSON "habits" ++ ":"
      ++ stringifyArray stringifyHabit (habits s)
           ("," ++ quoteJSON "entries" ++ ":"
                ++ stringifyArray stringifyEntry (entries s) "}")%string.

(** The values the text stands for. *)
Definition optionalMember (key : string) (v : option string)
    : list (Json.jstring * Json.value) :=
  match v with
  | Some t => [(Json.jstring_of key, Json.JStr (Json.jstring_of t))]
  | None => []
  end.

Definition habitValue (h : Habit) : Json.value :=
  Json.JObj
    ([(Json.jstring_of "id", Json.JStr (Json.jstring_of (id h)));
      (Json.jstring_of "name", Json.JStr (Json.jstring_of (name h)));
      (Json.jstring_of "targetTime", Json.JNum (numberText (targetTime h)))]
     ++ optionalMember "color" (color h)).

Definition entryValue (e : HabitEntry) : Json.value :=
  Json.JObj
    ([(Json.jstring_of "habitId", Json.JStr (Json.jstring_of (habitId e)));
      (Json.jstring_of "date", Json.JStr (Json.jstring_of (date e)));
      (Json.jstring_of "status",
       Json.JStr (Json.jstring_of (statusText (status e))));
      (Json.jstring_of "timeSpent", Json.JNum (numberText (timeSpent e)))]
     ++ optionalMember "notes" (notes e)).

(** Integers that a number holds exactly. *)
Definition isSafeInteger (n : Z) : Prop := - (2 ^ 53) < n < 2 ^ 53.

Definition safeIntegers (s : AppState) : Prop :=
  Forall (fun h => isSafeInteger (targetTime h)) (habits s)
  /\ Forall (fun e => isSafeInteger (timeSpent e)) (entries s).

(** The lexer on a part of a text: the tokens written and the state
    reached. *)
Fixpoint lexRun (st : Json.lstate) (s : string)
    : option (list Json.token * Json.lstate) :=
  match s with
  | EmptyString => Some ([], st)
  | String c r =>
      match Json.lexStep st c with
      | Some (ts, st') =>
          match lexRun st' r with
          | Some (ts', st'') => Some (ts ++ ts', st'')
          | None => None
          end
      | None => None
      end
  end.

(** The tokens of the values above. *)
Definition optionalTokens (key : string) (v : option string) : list Json.token :=
  match v with
  | Some t => [Json.TComma; Json.TStr (Json.jstring_of key); Json.TColon;
               Json.TStr (Json.jstring_of t)]
  | None => []
  end.

Definition habitTokens (h : Habit) : list Json.token :=
  [Json.TLBrace;
   Json.TStr (Json.jstring_of "id"); Json.TColon;
   Json.TStr (Json.jstring_of (id h)); Json.TComma;
   Json.TStr (Json.jstring_of "name"); Json.TColon;
   Json.TStr (Json.jstring_of (name h)); Json.TComma;
   Json.TStr (Json.jstring_of "targetTime"); Json.TColon;
   Json.TNum (numberText (targetTime h))]
  ++ optionalTokens "color" (color h) ++ [Json.TRBrace].

Definition entryTokens (e : HabitEntry) : list Json.token :=
  [Json.TLBrace;
   Json.TStr (Json.jstring_of "habitId"); Json.TColon;
   Json.TStr (Json.jstring_of (habitId e)); Json.TComma;
   Json.TStr (Json.jstring_of "date"); Json.TColon;
   Json.TStr (Json.jstring_of (date e)); Json.TComma;
   Json.TStr (Json.jstring_of "status"); Json.TColon;
   Json.TStr (Json.jstring_of (statusText (status e))); Json.TComma;
   Json.TStr (Json.jstring_of "timeSpent"); Json.TColon;
   Json.TNum (numberText (timeSpent e))]
  ++ optionalTokens "notes" (notes e) ++ [Json.TRBrace].

Fixpoint elementTokens {A} (f : A -> list Json.token) (l : list A)
    : list Json.token :=
  match l with
  | [] => []
  | [x] => f x
  | x :: r => f x ++ Json.TComma :: elementTokens f r
  end.

Definition arrayTokens {A} (f : A -> list Json.token) (l : list A)
    : list Json.token :=
  Json.TLBrack :: elementTokens f l ++ [Json.TRBrack].

(* ================================================================= *)
(** ** The calendar, for the proofs *)

(** The days before year [yoe] of a cycle of 400 years that starts on a
    first of March. *)
Definition yearStart (yoe : Z) : Z := yoe * 365 + yoe / 4 - yoe / 100.

(** A date whose year [format] writes with four digits and [parseISO]
    reads. *)
Definition fourDigitYear (d : Date) : Prop := 1 <= getFullYear d <= 9999.

(** [addLeadingZeros y 4] is four digits that read as [y]. *)
Definition fourDigitsOk (y : Z) : bool :=
  match addLeadingZeros y 4 with
  | String a (String b (String c (String e EmptyString))) =>
      match twoDigits a b, twoDigits c e with
      | Some h, Some l => h * 100 + l =? y
      | _, _ => false
      end
  | _ => false
  end.

(** [addLeadingZeros n 2] is two digits that read as [n]. *)
Definition twoDigitsOk (n : Z) : bool :=
  match addLeadingZeros n 2 with
  | String a (String b EmptyString) =>
      match twoDigits a b with
      | Some v => v =? n
      | None => false
      end
  | _ => false
  end.

(* ================================================================= *)
(** ** Vocabulary of the statements about the views *)

(** The entries of a habit. *)
Definition ownEntries (habit : Habit) (es : list HabitEntry) : list HabitEntry :=
  filter (fun e => String.eqb (habitId e) (id habit)) es.



(* ================================================================= *)
(** ** Sample data *)

(** A habit, the month of January 2024 in view, without entries and with
    one entry, and two readings of the clock two days apart. *)
Definition sampleHabit : Habit := mkHabit "h1" "Run" 30 None.
Definition sampleState : AppState :=
  mkState [sampleHabit] [] None false None None (daysFromCivil 2024 1 1 * msPerDay).
Definition loggedEntry : HabitEntry :=
  mkEntry "h1" "2024-01-05" StatusDone 45 None.
Definition loggedState : AppState := setEntries [loggedEntry] sampleState.
(** The text [JSON.stringify] writes for the first default habit and no
    entries; [quoted] puts a text between double quotes. *)
Definition quoted (t : string) : string :=
  String Json.dquote (t ++ String Json.dquote "").
Definition sampleSnapshot : string :=
  "{" ++ quoted "habits" ++ ":[{" ++ quoted "id" ++ ":" ++ quoted "1" ++ ","
      ++ quoted "name" ++ ":" ++ quoted "Exercise" ++ ","
      ++ quoted "targetTime" ++ ":30}]," ++ quoted "entries" ++ ":[]}".
Definition editingState : AppState :=
  setEditingHabit (Some sampleHabit) sampleState.
Definition clockJan5 : Date := daysFromCivil 2024 1 5 * msPerDay + 3600000.
Definition clockJan7 : Date := daysFromCivil 2024 1 7 * msPerDay + 3600000.

(* ================================================================= *)
(** ** Lists *)

Section ListFacts.

Context {A : Type}.
Variable p : A -> bool.

Lemma find_app_l (l l' : list A) (x : A) :
  find p l = Some x -> find p (l ++ l') = Some x.
Proof.
  induction l as [|a l IH]; simpl; [discriminate|].
  destruct (p a); auto.
Qed.

Lemma find_app_r (l l' : list A) :
  find p l = None -> find p (l ++ l') = find p l'.
Proof.
  induction l as [|a l IH]; simpl; [reflexivity|].
  destruct (p a); [discriminate|auto].
Qed.

Lemma find_rejected (l : list A) :
  find p (filter (fun x => negb (p x)) l) = None.
Proof.
  induction l as [|a l IH]; simpl; [reflexivity|].
  destruct (p a) eqn:E; simpl; [assumption|].
  now rewrite E.
Qed.

Lemma filter_rejected (l : list A) :
  filter p (filter (fun x => negb (p x)) l) = [].
Proof.
  induction l as [|a l IH]; simpl; [reflexivity|].
  destruct (p a) eqn:E; simpl; [assumption|].
  now rewrite E.
Qed.

Lemma find_none_iff (l : list A) :
  find p l = None <-> forall x, In x l -> p x = false.
Proof.
  split.
  - apply find_none.
  - induction l as [|a l IH]; simpl; intros H; [reflexivity|].
    rewrite (H a) by now left.
    apply IH; intros x Hx; apply H; now right.
Qed.

(** A [find] that skips over elements the other test rejects too. *)
Lemma find_filter_agree (q : A -> bool) (l : list A) :
  (forall x, p x = true -> q x = true) ->
  find p (filter q l) = find p l.
Proof.
  intros Hpq; induction l as [|a l IH]; simpl; [reflexivity|].
  destruct (q a) eqn:Eq; simpl.
  - now rewrite IH.
  - destruct (p a) eqn:Ep; [|assumption].
    apply Hpq in Ep; congruence.
Qed.

Lemma filter_filter_and (q : A -> bool) (l : list A) :
  filter q (filter p l) = filter (fun x => (p x && q x)%bool) l.
Proof.
  induction l as [|a l IH]; simpl; [reflexivity|].
  destruct (p a); simpl; [destruct (q a)|]; now rewrite ?IH.
Qed.

End ListFacts.

(** Dropping elements keeps the keys of the others distinct. *)
Lemma distinct_keys_filter {V K} (key : V -> K) (keep : V -> bool) :
  forall vs : list V, NoDup (map key vs) -> NoDup (map key (filter keep vs)).
Proof.
  intros vs; induction vs as [|v vs IH]; cbn [map filter]; intros Hnd.
  - exact Hnd.
  - apply NoDup_cons_iff in Hnd as [Hfresh Hrest].
    destruct (keep v); cbn [map]; [|now apply IH].
    apply NoDup_cons; [|now apply IH].
    contradict Hfresh.
    apply in_map_iff in Hfresh as (w & Hkey & Hw).
    apply in_map_iff; exists w; split; [exact Hkey|].
    now apply filter_In in Hw.
Qed.

Lemma NoDup_snoc {A} (l : list A) (x : A) :
  NoDup l -> ~ In x l -> NoDup (l ++ [x]).
Proof.
  induction l as [|a l IH]; simpl; intros Hnd Hnin.
  - constructor; [intros []|constructor].
  - inversion Hnd as [|? ? Ha Hl]; subst.
    constructor.
    + rewrite in_app_iff; simpl; intros [H|[H|[]]]; [now apply Ha|].
      apply Hnin; now left.
    + apply IH; [assumption|tauto].
Qed.

(* ================================================================= *)
(** ** Entries and their keys *)

Lemma forKey_true (h d : string) (e : HabitEntry) :
  forKey h d e = true <-> habitId e = h /\ date e = d.
Proof.
  unfold forKey; rewrite andb_true_iff, !String.eqb_eq; tauto.
Qed.

Lemma forKey_entryKey (h d : string) (e : HabitEntry) :
  forKey h d e = true <-> entryKey e = (h, d).
Proof.
  rewrite forKey_true; unfold entryKey; split.
  - intros [-> ->]; reflexivity.
  - intros H; now inversion H.
Qed.

Lemma forKey_same (h d : string) (st : HabitStatus) (t : Z) (n : option string) :
  forKey h d (mkEntry h d st t n) = true.
Proof. apply forKey_true; simpl; auto. Qed.

Lemma getEntry_find (h d : string) (s : AppState) :
  getEntry h d s = find (forKey h d) (entries s).
Proof. reflexivity. Qed.

Lemma entries_updateEntry h d st t n s :
  entries (updateEntry h d st t n s)
  = filter (fun e => negb (forKey h d e)) (entries s) ++ [mkEntry h d st t n].
Proof. reflexivity. Qed.

Lemma habits_updateEntry h d st t n s :
  habits (updateEntry h d st t n s) = habits s.
Proof. reflexivity. Qed.

Lemma getEntry_updateEntry_same h d st t n s :
  getEntry h d (updateEntry h d st t n s) = Some (mkEntry h d st t n).
Proof.
  rewrite getEntry_find, entries_updateEntry.
  rewrite find_app_r by apply find_rejected.
  simpl; now rewrite forKey_same.
Qed.

Lemma getEntry_updateEntry_other h d h' d' st t n s :
  (h', d') <> (h, d) ->
  getEntry h' d' (updateEntry h d st t n s) = getEntry h' d' s.
Proof.
  intros Hne; rewrite !getEntry_find, entries_updateEntry.
  assert (Hnew : forKey h' d' (mkEntry h d st t n) = false).
  { destruct (forKey h' d' (mkEntry h d st t n)) eqn:E; [|reflexivity].
    apply forKey_true in E; simpl in E; destruct E; subst; now elim Hne. }
  assert (Hold : find (forKey h' d') (filter (fun e => negb (forKey h d e)) (entries s))
                 = find (forKey h' d') (entries s)).
  { apply find_filter_agree; intros x Hx.
    destruct (forKey h d x) eqn:E; [|reflexivity].
    apply forKey_true in Hx, E; destruct Hx, E; subst; now elim Hne. }
  rewrite <- Hold.
  destruct (find (forKey h' d') (filter (fun e => negb (forKey h d e)) (entries s)))
    as [e|] eqn:F.
  - now rewrite (find_app_l _ _ _ _ F).
  - rewrite find_app_r by assumption. simpl; now rewrite Hnew.
Qed.

Lemma uniqueKeys_updateEntry h d st t n s :
  uniqueKeys (entries s) -> uniqueKeys (entries (updateEntry h d st t n s)).
Proof.
  unfold uniqueKeys; intros H.
  rewrite entries_updateEntry, map_app; simpl.
  apply NoDup_snoc; [now apply distinct_keys_filter|].
  intros Hin; apply in_map_iff in Hin as (x & Hk & Hx).
  apply filter_In in Hx as [_ Hx].
  apply forKey_entryKey in Hk; unfold entryKey in Hk; simpl in Hk.
  now rewrite Hk in Hx.
Qed.

Lemma uniqueKeys_handleDeleteHabit c i s :
  uniqueKeys (entries s) -> uniqueKeys (entries (handleDeleteHabit c i s)).
Proof.
  unfold uniqueKeys, handleDeleteHabit; destruct c; simpl; [|auto].
  apply distinct_keys_filter.
Qed.

Lemma entries_handleAddHabit r f s :
  entries (handleAddHabit r f s) = entries s.
Proof.
  unfold handleAddHabit.
  destruct (Js.parseInt (form_targetTime f)); [|reflexivity].
  now destruct (negb (form_name f =? "")%string && negb (z =? 0))%bool.
Qed.

Lemma entries_handleUpdateHabit f s :
  entries (handleUpdateHabit f s) = entries s.
Proof.
  unfold handleUpdateHabit.
  destruct (editingHabit s); [|reflexivity].
  destruct (Js.parseInt (form_targetTime f)); [|reflexivity].
  now destruct (negb (form_name f =? "")%string && negb (z =? 0))%bool.
Qed.

Lemma uniqueKeys_step a s :
  uniqueKeys (entries s) -> uniqueKeys (entries (step a s)).
Proof.
  destruct a; intros H; cbn [step];
    rewrite ?entries_handleAddHabit, ?entries_handleUpdateHabit;
    auto using uniqueKeys_updateEntry, uniqueKeys_handleDeleteHabit.
Qed.

Lemma uniqueKeys_reachable s0 s :
  uniqueKeys (entries s0) -> reachable s0 s -> uniqueKeys (entries s).
Proof.
  intros H0 R; induction R; auto using uniqueKeys_step.
Qed.

Lemma getEntry_entries h d s s' :
  entries s' = entries s -> getEntry h d s' = getEntry h d s.
Proof. unfold getEntry; now intros ->. Qed.

Lemma getEntry_Some h d s e :
  getEntry h d s = Some e -> In e (entries s) /\ habitId e = h /\ date e = d.
Proof.
  rewrite getEntry_find; intros F.
  apply find_some in F as [Hin Hk]; apply forKey_true in Hk; tauto.
Qed.

Lemma getEntry_None h d s :
  getEntry h d s = None
  <-> forall e, In e (entries s) -> ~ (habitId e = h /\ date e = d).
Proof.
  rewrite getEntry_find, find_none_iff; split; intros H e Hin.
  - rewrite <- forKey_true, (H e Hin); discriminate.
  - destruct (forKey h d e) eqn:E; [|reflexivity].
    apply forKey_true in E; now elim (H e Hin).
Qed.

Lemma key_eq_dec (k k' : string * string) : {k = k'} + {k <> k'}.
Proof. decide equality; apply string_dec. Qed.

Lemma entries_handleDeleteHabit i s :
  entries (handleDeleteHabit true i s)
  = filter (fun e => negb (String.eqb (habitId e) i)) (entries s).
Proof. reflexivity. Qed.

Lemma habits_handleDeleteHabit i s :
  habits (handleDeleteHabit true i s)
  = filter (fun h => negb (String.eqb (id h) i)) (habits s).
Proof. reflexivity. Qed.

Lemma handleDeleteHabit_declined i s : handleDeleteHabit false i s = s.
Proof. reflexivity. Qed.

Lemma negb_eqb_true (a b : string) : negb (String.eqb a b) = true <-> a <> b.
Proof. rewrite negb_true_iff; apply String.eqb_neq. Qed.

Lemma getEntry_handleDeleteHabit_other i h d s :
  h <> i -> getEntry h d (handleDeleteHabit true i s) = getEntry h d s.
Proof.
  intros Hne; rewrite !getEntry_find, entries_handleDeleteHabit.
  apply find_filter_agree; intros x Hx.
  apply forKey_true in Hx as [-> _]; now apply negb_eqb_true.
Qed.

Lemma getEntry_handleDeleteHabit_same i d s :
  getEntry i d (handleDeleteHabit true i s) = None.
Proof.
  apply getEntry_None; intros e Hin [Hh _].
  rewrite entries_handleDeleteHabit in Hin.
  apply filter_In in Hin as [_ Hin]; now apply negb_eqb_true in Hin.
Qed.

(* ================================================================= *)
(** ** The state store *)

(** C1.  Logging the same habit and day twice: [getEntry] then returns
    exactly the entry of the second call, and the entries list holds that
    entry and no other for the pair, whatever the list was before (also one
    that held several entries for the pair). *)
Theorem upsertEntry_last_write_wins :
  forall (s : AppState) (habitId0 date0 : string)
         (s1 s2 : HabitStatus) (t1 t2 : Z) (n1 n2 : option string),
    let s' := updateEntry habitId0 date0 s2 t2 n2
                (updateEntry habitId0 date0 s1 t1 n1 s) in
    getEntry habitId0 date0 s' = Some (mkEntry habitId0 date0 s2 t2 n2)
    /\ filter (forKey habitId0 date0) (entries s')
       = [mkEntry habitId0 date0 s2 t2 n2].
Proof.
  intros s h d s1 s2 t1 t2 n1 n2 s'; subst s'; split.
  - apply getEntry_updateEntry_same.
  - rewrite entries_updateEntry, filter_app, filter_rejected.
    simpl; now rewrite forKey_same.
Qed.

(** C2.  From a state whose entries have pairwise distinct
    (habitId, date) pairs, every state the events lead to has that property,
    and each of addHabit, updateHabit, deleteHabit and upsertEntry keeps
    it. *)
Theorem store_operations_preserve_uniqueKeys :
  forall (s0 s : AppState),
    uniqueKeys (entries s0) ->
    reachable s0 s ->
    uniqueKeys (entries s)
    /\ (forall randomId form,
          uniqueKeys (entries (handleAddHabit randomId form s)))
    /\ (forall form, uniqueKeys (entries (handleUpdateHabit form s)))
    /\ (forall confirmed id0,
          uniqueKeys (entries (handleDeleteHabit confirmed id0 s)))
    /\ (forall habitId0 date0 status0 timeSpent0 notes0,
          uniqueKeys
            (entries (updateEntry habitId0 date0 status0 timeSpent0 notes0 s))).
Proof.
  intros s0 s H0 R.
  pose proof (uniqueKeys_reachable s0 s H0 R) as H.
  split; [assumption|].
  split; [intros r f; apply (uniqueKeys_step (AddHabit r f)); assumption|].
  split; [intros f; apply (uniqueKeys_step (UpdateHabit f)); assumption|].
  split; [intros c i; apply (uniqueKeys_step (DeleteHabit c i)); assumption|].
  intros h d st t n; apply (uniqueKeys_step (UpsertEntry h d st t n)); assumption.
Qed.

(** C7.  A confirmed deleteHabit keeps exactly the habits with another id
    and exactly the entries of other habits: the habit and all its entries
    are gone, and looking up any day of any other habit gives what it gave
    before. *)
Theorem deleteHabit_removes_habit_and_its_entries :
  forall (s : AppState) (id0 : string),
    let s' := handleDeleteHabit true id0 s in
    (forall h, In h (habits s') <-> In h (habits s) /\ id h <> id0)
    /\ (forall e, In e (entries s') <-> In e (entries s) /\ habitId e <> id0)
    /\ (forall d, getEntry id0 d s' = None)
    /\ (forall h d, h <> id0 -> getEntry h d s' = getEntry h d s)
    /\ (forall i, i <> id0 ->
          filter (fun h => String.eqb (id h) i) (habits s')
          = filter (fun h => String.eqb (id h) i) (habits s))
    /\ (forall i, i <> id0 ->
          filter (fun e => String.eqb (habitId e) i) (entries s')
          = filter (fun e => String.eqb (habitId e) i) (entries s)).
Proof.
  intros s i s'; subst s'.
  rewrite entries_handleDeleteHabit, habits_handleDeleteHabit.
  split; [intros h; now rewrite filter_In, negb_eqb_true|].
  split; [intros e; now rewrite filter_In, negb_eqb_true|].
  split; [intros d; apply getEntry_handleDeleteHabit_same|].
  split; [intros h d Hne; now apply getEntry_handleDeleteHabit_other|].
  split; intros j Hne; rewrite filter_filter_and; apply filter_ext; intros x.
  - destruct (String.eqb_spec (id x) j) as [->|]; [|now rewrite andb_false_r].
    apply String.eqb_neq in Hne; now rewrite Hne.
  - destruct (String.eqb_spec (habitId x) j) as [->|]; [|now rewrite andb_false_r].
    apply String.eqb_neq in Hne; now rewrite Hne.
Qed.

(** C10.  upsertEntry looks at no habit: whatever the habit list holds, the
    entry is inserted, the habit list stays as it was, and [getEntry]
    returns the entry.  Afterwards every event other than a confirmed
    deleteHabit of that id leaves an entry under the pair, the very same
    entry unless the event logs the same habit and day anew; a confirmed
    deleteHabit of that id removes it. *)
Theorem upsertEntry_keeps_dangling_entries :
  forall (s : AppState) (habitId0 date0 : string) (st : HabitStatus)
         (t : Z) (n : option string),
    let e := mkEntry habitId0 date0 st t n in
    let s1 := updateEntry habitId0 date0 st t n s in
    getEntry habitId0 date0 s1 = Some e
    /\ In e (entries s1)
    /\ habits s1 = habits s
    /\ (forall s2 a,
          a <> DeleteHabit true habitId0 ->
          getEntry habitId0 date0 s2 <> None ->
          getEntry habitId0 date0 (step a s2) <> None)
    /\ (forall s2 a,
          a <> DeleteHabit true habitId0 ->
          (forall st' t' n', a <> UpsertEntry habitId0 date0 st' t' n') ->
          In e (entries s2) -> In e (entries (step a s2)))
    /\ (forall s2 d, getEntry habitId0 d (handleDeleteHabit true habitId0 s2) = None).
Proof.
  intros s h d st t n e s1; subst s1.
  split; [apply getEntry_updateEntry_same|].
  split; [rewrite entries_updateEntry, in_app_iff; right; now left|].
  split; [reflexivity|].
  split; [|split].
  - intros s2 a Hdel Hsome.
    destruct a as [r f|f|c i|h' d' st' t' n'|o|b|o|o|v]; cbn [step];
      try (now rewrite (getEntry_entries h d s2);
             [|first [apply entries_handleAddHabit
                     |apply entries_handleUpdateHabit|reflexivity]]).
    + destruct c; [|assumption].
      rewrite getEntry_handleDeleteHabit_other; [assumption|].
      intros ->; now apply Hdel.
    + destruct (key_eq_dec (h, d) (h', d')) as [E|E].
      * inversion E; subst. now rewrite getEntry_updateEntry_same.
      * rewrite getEntry_updateEntry_other; assumption.
  - intros s2 a Hdel Hups Hin.
    destruct a as [r f|f|c i|h' d' st' t' n'|o|b|o|o|v]; cbn [step];
      rewrite ?entries_handleAddHabit, ?entries_handleUpdateHabit;
      try assumption.
    + destruct c; [|assumption].
      rewrite entries_handleDeleteHabit; apply filter_In; split; [assumption|].
      apply negb_eqb_true; simpl; intros ->; now apply Hdel.
    + rewrite entries_updateEntry, in_app_iff; left.
      apply filter_In; split; [assumption|].
      destruct (forKey h' d' e) eqn:E; [|reflexivity].
      apply forKey_true in E; simpl in E; destruct E; subst.
      now elim (Hups st' t' n').
  - intros s2 d'; apply getEntry_handleDeleteHabit_same.
Qed.

(** An entry for the id "ghost", which no habit of the sample state has. *)
Lemma dangling_entry_example :
  let s1 := updateEntry "ghost" "2024-01-05" StatusDone 5 None sampleState in
  find (fun h => String.eqb (id h) "ghost") (habits s1) = None
  /\ getEntry "ghost" "2024-01-05" s1
     = Some (mkEntry "ghost" "2024-01-05" StatusDone 5 None)
  /\ entries (handleDeleteHabit true "ghost" s1) = [].
Proof. repeat split. Qed.

(* ================================================================= *)
(** ** Dates and the clock *)

Lemma msPerDay_pos : 0 < msPerDay.
Proof. reflexivity. Qed.

Lemma dayNumber_subDays (d : Date) (i : Z) :
  dayNumber (subDays d i) = dayNumber d - i.
Proof.
  unfold dayNumber, subDays.
  replace (d - i * msPerDay) with (d + (- i) * msPerDay) by ring.
  rewrite Z.div_add by (pose proof msPerDay_pos; lia).
  ring.
Qed.


(** What [format] writes depends on the calendar day alone. *)
Lemma format_yyyy_MM_dd_day (a b : Date) :
  dayNumber a = dayNumber b -> format_yyyy_MM_dd a = format_yyyy_MM_dd b.
Proof.
  unfold format_yyyy_MM_dd, formatYear, getFullYear, getMonth1, getDate.
  now intros ->.
Qed.

Lemma format_MMM_dd_day (a b : Date) :
  dayNumber a = dayNumber b -> format_MMM_dd a = format_MMM_dd b.
Proof.
  unfold format_MMM_dd, getMonth1, getDate.
  now intros ->.
Qed.

Lemma startOfToday_day (t1 t2 : Date) :
  dayNumber t1 = dayNumber t2 -> startOfToday t1 = startOfToday t2.
Proof. unfold startOfToday, bind, ret, new_Date, startOfDay; now intros ->. Qed.

Lemma isToday_day (d t1 t2 : Date) :
  dayNumber t1 = dayNumber t2 -> isToday d t1 = isToday d t2.
Proof.
  unfold isToday, bind, ret, new_Date, isSameDay, startOfDay; now intros ->.
Qed.

Lemma mapClock_map {A B} (f : A -> Clock B) (xs : list A) (now : Date) :
  mapClock f xs now = map (fun x => f x now) xs.
Proof.
  induction xs as [|x r IH]; [reflexivity|].
  cbn [mapClock map]; unfold bind, ret in *; now rewrite IH.
Qed.

(* ================================================================= *)
(** ** The derived views *)


Lemma last30DaysLoop_unfold habit es (n : nat) (acc : list HabitStats.TrendPoint)
    (now : Date) :
  HabitStats.last30DaysLoop habit es n acc now
  = acc ++ map (fun i => HabitStats.trendPoint habit es (Z.of_nat i) now)
               (rev (seq 0 n)).
Proof.
  revert acc; induction n as [|i IH]; intros acc.
  - simpl; unfold ret; now rewrite app_nil_r.
  - cbn [HabitStats.last30DaysLoop]; unfold bind at 1.
    rewrite IH, seq_S, rev_app_distr, <- app_assoc; reflexivity.
Qed.

Lemma trendPoint_fields habit es (i : Z) (now : Date) :
  let p := HabitStats.trendPoint habit es i now in
  let day := subDays now i in
  HabitStats.pointDate p = format_MMM_dd day
  /\ HabitStats.pointTarget p = targetTime habit
  /\ match find (forKey (id habit) (format_yyyy_MM_dd day)) es with
     | Some e => HabitStats.pointTimeSpent p = timeSpent e
                 /\ HabitStats.pointStatus p = status e
     | None => HabitStats.pointTimeSpent p = 0
               /\ HabitStats.pointStatus p = StatusNone
     end.
Proof.
  unfold HabitStats.trendPoint, bind, ret, new_Date; cbn zeta.
  change (fun e : HabitEntry =>
            (String.eqb (habitId e) (id habit)
             && String.eqb (date e) (format_yyyy_MM_dd (subDays now i)))%bool)
    with (forKey (id habit) (format_yyyy_MM_dd (subDays now i))).
  destruct (find (forKey (id habit) (format_yyyy_MM_dd (subDays now i))) es)
    as [e|]; simpl; repeat split; try reflexivity.
  destruct (Z.eqb_spec (timeSpent e) 0); congruence.
Qed.


(** C4.  The trend has 30 points; the point at index [k] (from 0) is that
    of the calendar day [29 - k] days before the day of the clock, so the
    points run from the oldest day to the current one; it carries the target
    of the habit and the time and status of the entry logged for that day,
    or 0 minutes and the status 'none' when there is none. *)
Theorem last30Days_points :
  forall (habit : Habit) (es : list HabitEntry) (now : Date),
    let pts := HabitStats.last30Days habit es now in
    List.length pts = 30%nat
    /\ forall k : nat, (k < 30)%nat ->
         exists p, nth_error pts k = Some p
           /\ let day := subDays now (29 - Z.of_nat k) in
              dayNumber day = dayNumber now - 29 + Z.of_nat k
              /\ HabitStats.pointDate p = format_MMM_dd day
              /\ HabitStats.pointTarget p = targetTime habit
              /\ match find (forKey (id habit) (format_yyyy_MM_dd day)) es with
                 | Some e => HabitStats.pointTimeSpent p = timeSpent e
                             /\ HabitStats.pointStatus p = status e
                 | None => HabitStats.pointTimeSpent p = 0
                           /\ HabitStats.pointStatus p = StatusNone
                 end.
Proof.
  intros habit es now pts; subst pts.
  unfold HabitStats.last30Days; rewrite last30DaysLoop_unfold; cbn [app].
  split; [now rewrite length_map, length_rev, length_seq|].
  intros k Hk.
  exists (HabitStats.trendPoint habit es (29 - Z.of_nat k) now).
  split.
  - rewrite nth_error_map.
    assert (E : nth_error (rev (seq 0 30)) k = Some (29 - k)%nat).
    { do 30 (destruct k as [|k]; [reflexivity|]); lia. }
    rewrite E; cbn [option_map]; do 2 f_equal; lia.
  - cbn zeta; split; [rewrite dayNumber_subDays; ring|].
    apply trendPoint_fields.
Qed.



(** The example of the specification: 45 minutes against a target of 30
    show as 150 percent. *)
Lemma percentOfTarget_example : Js.to_Z (percentOfTarget 45 30) = Some 150.
Proof. vm_compute; reflexivity. Qed.

(** The quotient is that of binary64: 23 entries done out of 40 give
    57.49999999999999 before rounding, and a rate of 57. *)
Lemma completionRate_binary64 :
  Js.to_Z (Js.Math_round (Js.mul (Js.div (Js.of_Z 23) (Js.of_Z 40)) (Js.of_Z 100)))
  = Some 57.
Proof. vm_compute; reflexivity. Qed.

Lemma renderCell_day s day dateStr habit (t1 t2 : Date) :
  dayNumber t1 = dayNumber t2 ->
  renderCell s day dateStr habit t1 = renderCell s day dateStr habit t2.
Proof.
  intros H; unfold renderCell, bind.
  now rewrite (startOfToday_day t1 t2 H).
Qed.

Lemma renderGrid_day s (t1 t2 : Date) :
  dayNumber t1 = dayNumber t2 -> renderGrid s t1 = renderGrid s t2.
Proof.
  intros H; unfold renderGrid; rewrite !mapClock_map.
  apply map_ext; intros day.
  unfold renderRow, bind, ret.
  rewrite (isToday_day day t1 t2 H), !mapClock_map.
  f_equal.
  apply map_ext; intros h; now apply renderCell_day.
Qed.

Lemma trendPoint_day habit es i (t1 t2 : Date) :
  dayNumber t1 = dayNumber t2 ->
  HabitStats.trendPoint habit es i t1 = HabitStats.trendPoint habit es i t2.
Proof.
  intros H; unfold HabitStats.trendPoint, bind, ret, new_Date.
  assert (E : dayNumber (subDays t1 i) = dayNumber (subDays t2 i))
    by (rewrite !dayNumber_subDays; now rewrite H).
  now rewrite (format_yyyy_MM_dd_day _ _ E), (format_MMM_dd_day _ _ E).
Qed.

Lemma last30Days_day habit es (t1 t2 : Date) :
  dayNumber t1 = dayNumber t2 ->
  HabitStats.last30Days habit es t1 = HabitStats.last30Days habit es t2.
Proof.
  intros H; unfold HabitStats.last30Days; rewrite !last30DaysLoop_unfold.
  f_equal; apply map_ext; intros i; now apply trendPoint_day.
Qed.

(** C9, as stated, fails: with the same habits, entries, habit and month in
    view, the grid and the trend computed at two readings of the clock
    differ. *)
Lemma projections_read_the_clock :
  renderGrid sampleState clockJan5 <> renderGrid sampleState clockJan7
  /\ HabitStats.last30Days sampleHabit (entries sampleState) clockJan5
     <> HabitStats.last30Days sampleHabit (entries sampleState) clockJan7
  /\ ~ (forall s, ignoresClock (renderGrid s))
  /\ ~ (forall h es, ignoresClock (HabitStats.last30Days h es)).
Proof.
  assert (G : renderGrid sampleState clockJan5 <> renderGrid sampleState clockJan7).
  { intros H.
    apply (f_equal (fun rows => map isCurrentDay rows)) in H.
    vm_compute in H; discriminate H. }
  assert (T : HabitStats.last30Days sampleHabit (entries sampleState) clockJan5
              <> HabitStats.last30Days sampleHabit (entries sampleState) clockJan7).
  { intros H.
    apply (f_equal (fun pts => map HabitStats.pointDate pts)) in H.
    vm_compute in H; discriminate H. }
  split; [exact G|]. split; [exact T|]. split.
  - intros H; exact (G (H sampleState clockJan5 clockJan7)).
  - intros H; exact (T (H sampleHabit (entries sampleState) clockJan5 clockJan7)).
Qed.

(** C9, amended.  The completion rate, the journal and the count of entries
    are functions of the habit and the entries alone.  The monthly grid and
    the 30-day trend read the clock, and of the clock only the calendar day:
    two readings on the same day give the same grid and the same trend. *)
Theorem projections_depend_on_the_day_alone :
  forall (s : AppState) (habit : Habit) (es : list HabitEntry) (t1 t2 : Date),
    dayNumber t1 = dayNumber t2 ->
    renderGrid s t1 = renderGrid s t2
    /\ HabitStats.render habit es t1 = HabitStats.render habit es t2
    /\ (forall t t',
          HabitStats.viewCompletionRate (HabitStats.render habit es t)
          = HabitStats.viewCompletionRate (HabitStats.render habit es t')
          /\ HabitStats.viewJournal (HabitStats.render habit es t)
             = HabitStats.viewJournal (HabitStats.render habit es t')
          /\ HabitStats.viewTotalEntries (HabitStats.render habit es t)
             = HabitStats.viewTotalEntries (HabitStats.render habit es t')).
Proof.
  intros s habit es t1 t2 H.
  split; [now apply renderGrid_day|].
  split.
  - unfold HabitStats.render, bind, ret.
    now rewrite (last30Days_day habit es t1 t2 H).
  - intros t t'; repeat split.
Qed.

Lemma projections_depend_on_the_day_alone_witness :
  dayNumber clockJan5 = dayNumber (clockJan5 + 1000)
  /\ renderGrid sampleState clockJan5 = renderGrid sampleState (clockJan5 + 1000).
Proof.
  split; [reflexivity|].
  apply (projections_depend_on_the_day_alone sampleState sampleHabit []
           clockJan5 (clockJan5 + 1000)).
  reflexivity.
Defined.

(* ================================================================= *)
(** ** [parseInt] on decimal numerals *)

Lemma digitValue_digitChar (d : Z) :
  0 <= d <= 9 -> Js.digitValue (Js.digitChar d) = Some d.
Proof.
  intros H.
  assert (C : d = 0 \/ d = 1 \/ d = 2 \/ d = 3 \/ d = 4 \/ d = 5 \/ d = 6
              \/ d = 7 \/ d = 8 \/ d = 9) by lia.
  repeat (destruct C as [->|C]; [reflexivity|]); subst; reflexivity.
Qed.

Lemma parseDigits_digit (d : Z) (r : string) (acc : option Z) :
  0 <= d <= 9 ->
  Js.parseDigits 10 (String (Js.digitChar d) r) acc
  = Js.parseDigits 10 r
      (Some (match acc with Some a => a * 10 + d | None => d end)).
Proof.
  intros H; cbn [Js.parseDigits]; rewrite (digitValue_digitChar d H).
  destruct (Z.ltb_spec d 10); [reflexivity|lia].
Qed.

Lemma parseDigits_digitsFrom (fuel : nat) :
  forall (n : Z) (tail : string),
    0 <= n < 2 ^ Z.of_nat fuel -> (0 < fuel)%nat ->
    Js.parseDigits 10 (Js.digitsFrom fuel n tail) None
    = Js.parseDigits 10 tail (Some n).
Proof.
  induction fuel as [|f IH]; intros n tail Hn Hf; [lia|].
  cbn [Js.digitsFrom].
  destruct (Z.ltb_spec n 10) as [Hlt|Hge].
  - rewrite Z.mod_small by lia. now rewrite parseDigits_digit by lia.
  - assert (Hpow : 2 ^ Z.of_nat (S f) = 2 * 2 ^ Z.of_nat f)
      by (rewrite Nat2Z.inj_succ, Z.pow_succ_r; lia).
    assert (Hf' : (0 < f)%nat).
    { destruct f; [|lia]. cbn in Hn; lia. }
    rewrite IH; [|split; [apply Z.div_pos; lia|]|assumption].
    + rewrite parseDigits_digit by (pose proof (Z.mod_pos_bound n 10); lia).
      do 2 f_equal. pose proof (Z.div_mod n 10); lia.
    + apply Z.div_lt_upper_bound; lia.
Qed.

Lemma toDecimal_fuel (n : Z) :
  0 <= n -> n < 2 ^ Z.of_nat (S (Z.to_nat (Z.log2 n))).
Proof.
  intros H.
  rewrite Nat2Z.inj_succ, Z2Nat.id by apply Z.log2_nonneg.
  destruct (Z.eq_dec n 0) as [->|]; [reflexivity|].
  apply Z.log2_spec; lia.
Qed.

Lemma parseDigits_toDecimal (n : Z) :
  0 <= n -> Js.parseDigits 10 (Js.toDecimal n) None = Some n.
Proof.
  intros H; unfold Js.toDecimal.
  rewrite parseDigits_digitsFrom; [reflexivity| |lia].
  split; [assumption|now apply toDecimal_fuel].
Qed.

(** The numeral of a positive integer starts with a digit other than 0. *)
Lemma digitsFrom_head (fuel : nat) :
  forall (n : Z) (tail : string),
    0 < n < 2 ^ Z.of_nat fuel ->
    exists d r, 1 <= d <= 9 /\ Js.digitsFrom fuel n tail = String (Js.digitChar d) r.
Proof.
  induction fuel as [|f IH]; intros n tail Hn; [cbn in Hn; lia|].
  cbn [Js.digitsFrom].
  destruct (Z.ltb_spec n 10) as [Hlt|Hge].
  - exists n, tail; rewrite Z.mod_small by lia; split; [lia|reflexivity].
  - assert (Hpow : 2 ^ Z.of_nat (S f) = 2 * 2 ^ Z.of_nat f)
      by (rewrite Nat2Z.inj_succ, Z.pow_succ_r; lia).
    apply IH; split.
    + apply Z.div_str_pos; lia.
    + apply Z.div_lt_upper_bound; lia.
Qed.

Lemma parseInt_leading_digit (d : Z) (r : string) :
  1 <= d <= 9 ->
  Js.parseInt (String (Js.digitChar d) r)
  = Js.parseDigits 10 (String (Js.digitChar d) r) None
  /\ Js.parseInt (String "-" (String (Js.digitChar d) r))
     = match Js.parseDigits 10 (String (Js.digitChar d) r) None with
       | Some m => Some (- m)
       | None => None
       end.
Proof.
  intros H.
  assert (C : d = 1 \/ d = 2 \/ d = 3 \/ d = 4 \/ d = 5 \/ d = 6
              \/ d = 7 \/ d = 8 \/ d = 9) by lia.
  assert (E : forall m : Z, -1 * m = - m) by (intros; ring).
  assert (E1 : forall m : Z, 1 * m = m) by (intros; ring).
  destruct C as [->|[->|[->|[->|[->|[->|[->|[->| ->]]]]]]]];
    match goal with
    | |- context [Js.digitChar ?k] =>
        let c := eval vm_compute in (Js.digitChar k) in
        change (Js.digitChar k) with c
    end;
    unfold Js.parseInt; cbv -[Js.parseDigits Z.mul Z.opp];
    (split;
     match goal with
     | |- context [Js.parseDigits 10 ?s ?a] =>
         destruct (Js.parseDigits 10 s a); rewrite ?E, ?E1; reflexivity
     end).
Qed.

Lemma parseInt_toDecimal (t : Z) :
  0 < t ->
  Js.parseInt (Js.toDecimal t) = Some t
  /\ Js.parseInt ("-" ++ Js.toDecimal t) = Some (- t).
Proof.
  intros H.
  pose proof (parseDigits_toDecimal t ltac:(lia)) as P.
  destruct (digitsFrom_head (S (Z.to_nat (Z.log2 t))) t "") as (d & r & Hd & E).
  { split; [assumption|apply toDecimal_fuel; lia]. }
  unfold Js.toDecimal in *; rewrite E in *.
  destruct (parseInt_leading_digit d r Hd) as [P1 P2].
  cbn [append]; now rewrite P1, P2, P.
Qed.

(* ================================================================= *)
(** ** Adding a habit *)

Lemma handleAddHabit_accepted randomId form s (t : Z) :
  form_name form <> "" ->
  Js.parseInt (form_targetTime form) = Some t ->
  t <> 0 ->
  handleAddHabit randomId form s
  = setIsAddingHabit false
      (setHabits (habits s ++ [mkHabit randomId (form_name form) t None]) s).
Proof.
  intros Hn Hp Ht; unfold handleAddHabit; rewrite Hp.
  apply String.eqb_neq in Hn; apply Z.eqb_neq in Ht.
  now rewrite Hn, Ht.
Qed.



(* ================================================================= *)
(** ** Loading the stored state *)

(** C8, as stated, fails: a stored text that does not deserialise makes
    the load effect throw; the default habits are not installed. *)
Lemma loadData_malformed_throws :
  Json.parse "{oops" = None
  /\ loadData (Some "{oops") = Throws SyntaxError
  /\ loadData (Some "{oops") <> SetDefaultHabits defaultHabits.
Proof.
  split; [reflexivity|]. split; [reflexivity|].
  vm_compute; discriminate.
Qed.

(** The text [null] deserialises, and taking its properties throws. *)
Lemma loadData_null_throws : loadData (Some "null") = Throws TypeError.
Proof. reflexivity. Qed.

(** A stored snapshot is installed as [JSON.parse] returns it. *)
Lemma loadData_snapshot :
  loadData (Some sampleSnapshot)
  = SetFromStorage
      (Parsed (Json.JArr
         [Json.JObj [(Json.jstring_of "id", Json.JStr (Json.jstring_of "1"));
                     (Json.jstring_of "name", Json.JStr (Json.jstring_of "Exercise"));
                     (Json.jstring_of "targetTime", Json.JNum "30")]]))
      (Parsed (Json.JArr [])).
Proof. vm_compute; reflexivity. Qed.

(** C8, amended.  The default habits are installed, and the entries left
    empty, exactly when the slot is absent or holds the empty text.  A text
    that does not deserialise makes the effect throw a SyntaxError, the text
    [null] a TypeError; neither is caught.  Any other text is installed:
    the [habits] and [entries] properties of the value read become the
    state, unchecked. *)
Theorem loadData_cases :
  forall (saved : option string) (now : Date),
    (loadData saved = SetDefaultHabits defaultHabits
     <-> saved = None \/ saved = Some "")
    /\ entries (setHabits defaultHabits (initialState now)) = []
    /\ (forall text,
          saved = Some text -> text <> "" ->
          match Json.parse text with
          | None => loadData saved = Throws SyntaxError
          | Some Json.JNull => loadData saved = Throws TypeError
          | Some v =>
              loadData saved
              = SetFromStorage (getProperty v "habits") (getProperty v "entries")
          end).
Proof.
  intros saved now.
  split; [|split; [reflexivity|]].
  - split.
    + destruct saved as [text|]; [|now left].
      unfold loadData.
      destruct (String.eqb_spec text "") as [->|Hne]; [now right|].
      destruct (Json.parse text) as [[]|]; discriminate.
    + intros [->| ->]; reflexivity.
  - intros text -> Hne; unfold loadData.
    apply String.eqb_neq in Hne; rewrite Hne.
    destruct (Json.parse text) as [[]|]; reflexivity.
Qed.

(* ================================================================= *)
(** ** Instances *)

Lemma store_operations_preserve_uniqueKeys_witness :
  uniqueKeys (entries loggedState)
  /\ reachable loggedState
       (step (DeleteHabit true "h2")
          (step (UpsertEntry "h1" "2024-01-06" StatusFailed 0 None) loggedState))
  /\ uniqueKeys
       (entries
          (step (DeleteHabit true "h2")
             (step (UpsertEntry "h1" "2024-01-06" StatusFailed 0 None)
                loggedState))).
Proof.
  assert (U : uniqueKeys (entries loggedState)).
  { unfold uniqueKeys; simpl.
    constructor; [intros []|constructor]. }
  assert (R : reachable loggedState
                (step (DeleteHabit true "h2")
                   (step (UpsertEntry "h1" "2024-01-06" StatusFailed 0 None)
                      loggedState))).
  { do 2 apply reach_step; apply reach_start. }
  split; [exact U|]. split; [exact R|].
  exact (proj1 (store_operations_preserve_uniqueKeys loggedState _ U R)).
Defined.


(** The cell of the example: 45 of 30 minutes, 150 percent, marked done. *)
Lemma renderCell_example :
  renderCell loggedState (daysFromCivil 2024 1 5 * msPerDay) "2024-01-05"
    sampleHabit clockJan7
  = mkCell "h1" "2024-01-05" BgEmerald false
      (Some (mkCellText TextEmerald 45 30 (Js.of_Z 150))) false.
Proof. vm_compute; reflexivity. Qed.

(* ================================================================= *)
(** ** More on the habits *)

Lemma handleUpdateHabit_accepted form s editing (t : Z) :
  editingHabit s = Some editing ->
  form_name form <> "" ->
  Js.parseInt (form_targetTime form) = Some t ->
  t <> 0 ->
  handleUpdateHabit form s
  = setEditingHabit None
      (setHabits
         (map (fun h => if String.eqb (id h) (id editing)
                        then mkHabit (id h) (form_name form) t (color h)
                        else h)
              (habits s)) s).
Proof.
  intros He Hn Hp Ht; unfold handleUpdateHabit; rewrite He, Hp.
  apply String.eqb_neq in Hn; apply Z.eqb_neq in Ht.
  now rewrite Hn, Ht.
Qed.

(** X1.  An accepted edit changes the name and the target of the habits
    that carry the id of the habit being edited, and nothing else: every
    habit keeps its place, its id and its colour, the habits with another id
    are the same, the entries are untouched, and the dialog closes. *)
Theorem handleUpdateHabit_renames_in_place :
  forall (form : HabitForm) (s : AppState) (editing : Habit) (t : Z),
    editingHabit s = Some editing ->
    form_name form <> "" ->
    Js.parseInt (form_targetTime form) = Some t ->
    t <> 0 ->
    let s' := handleUpdateHabit form s in
    Forall2 (fun h h' =>
               id h' = id h /\ color h' = color h
               /\ (id h <> id editing -> h' = h)
               /\ (id h = id editing ->
                   name h' = form_name form /\ targetTime h' = t))
            (habits s) (habits s')
    /\ entries s' = entries s
    /\ editingHabit s' = None
    /\ (forall h d, getEntry h d s' = getEntry h d s).
Proof.
  intros form s editing t He Hn Hp Ht s'; subst s'.
  rewrite (handleUpdateHabit_accepted form s editing t He Hn Hp Ht).
  cbn [habits entries editingHabit setEditingHabit setHabits].
  split; [|repeat split].
  induction (habits s) as [|h l IH]; cbn [map]; constructor; [|exact IH].
  destruct (String.eqb_spec (id h) (id editing)) as [E|E]; cbn.
  - repeat split; intros; congruence.
  - repeat split; intros; congruence.
Qed.

Lemma handleUpdateHabit_renames_in_place_witness :
  entries (handleUpdateHabit (mkForm "Walk" "45") editingState)
  = entries editingState
  /\ editingHabit (handleUpdateHabit (mkForm "Walk" "45") editingState) = None.
Proof.
  destruct (handleUpdateHabit_renames_in_place (mkForm "Walk" "45") editingState
              sampleHabit 45 eq_refl ltac:(discriminate) eq_refl
              ltac:(discriminate)) as (_ & He & Hd & _).
  exact (conj He Hd).
Defined.

(** X2.  An edit is dropped, and the state left as it is, when no habit is
    being edited, when the name is empty, or when [parseInt] of the target
    is NaN or 0. *)
Theorem handleUpdateHabit_rejected :
  forall (form : HabitForm) (s : AppState),
    editingHabit s = None
    \/ form_name form = ""
    \/ Js.parseInt (form_targetTime form) = None
    \/ Js.parseInt (form_targetTime form) = Some 0 ->
    handleUpdateHabit form s = s.
Proof.
  intros form s H; unfold handleUpdateHabit.
  destruct (editingHabit s) as [editing|]; [|reflexivity].
  destruct H as [H|[H|[H|H]]]; [discriminate| | |].
  - rewrite H; now destruct (Js.parseInt (form_targetTime form)).
  - now rewrite H.
  - rewrite H; now rewrite andb_false_r.
Qed.

Lemma handleUpdateHabit_rejected_witness :
  handleUpdateHabit (mkForm "Walk" "abc") editingState = editingState.
Proof.
  apply handleUpdateHabit_rejected.
  right; right; left; reflexivity.
Defined.

Lemma find_id_app_fresh (i : string) (l : list Habit) (h : Habit) :
  ~ In i (map id l) -> id h = i ->
  find (fun x => String.eqb (id x) i) (l ++ [h]) = Some h.
Proof.
  intros Hfresh Hid.
  rewrite find_app_r.
  - cbn; now rewrite Hid, String.eqb_refl.
  - apply find_none_iff; intros x Hx.
    apply String.eqb_neq; intros E; apply Hfresh.
    rewrite <- E; now apply in_map.
Qed.

(** X3.  An accepted new habit is found under its id when the random id is
    not in use, and the ids stay distinct; the dialog closes.  When the
    random id is in use already, looking the id up still gives an older
    habit and the ids are no longer distinct. *)
Theorem handleAddHabit_lookup :
  forall (randomId : string) (form : HabitForm) (s : AppState) (t : Z),
    form_name form <> "" ->
    Js.parseInt (form_targetTime form) = Some t ->
    t <> 0 ->
    let s' := handleAddHabit randomId form s in
    let new := mkHabit randomId (form_name form) t None in
    isAddingHabit s' = false
    /\ (~ In randomId (map id (habits s)) ->
        find (fun h => String.eqb (id h) randomId) (habits s') = Some new
        /\ (NoDup (map id (habits s)) -> NoDup (map id (habits s'))))
    /\ (In randomId (map id (habits s)) ->
        (exists old, In old (habits s)
           /\ find (fun h => String.eqb (id h) randomId) (habits s') = Some old)
        /\ ~ NoDup (map id (habits s'))).
Proof.
  intros r form s t Hn Hp Ht s' new; subst s' new.
  rewrite (handleAddHabit_accepted r form s t Hn Hp Ht).
  cbn [habits isAddingHabit setIsAddingHabit setHabits].
  split; [reflexivity|split].
  - intros Hfresh; split.
    + now apply find_id_app_fresh.
    + intros Hnd; rewrite map_app; cbn [map id].
      now apply NoDup_snoc.
  - intros Hused; split.
    + apply in_map_iff in Hused as (h & Hid & Hin).
      destruct (find (fun x => String.eqb (id x) r) (habits s)) as [old|] eqn:F.
      * exists old; split.
        -- now apply find_some in F.
        -- now apply find_app_l.
      * apply (proj1 (find_none_iff _ _)) with (x := h) in F; [|assumption].
        rewrite Hid, String.eqb_refl in F; discriminate.
    + rewrite map_app; cbn [map id]; intros Hnd.
      apply NoDup_remove_2 in Hnd; apply Hnd.
      now rewrite app_nil_r.
Qed.

Lemma handleAddHabit_lookup_witness :
  find (fun h => String.eqb (id h) "k3x9q0a7b")
       (habits (handleAddHabit "k3x9q0a7b" (mkForm "Read" "20") sampleState))
  = Some (mkHabit "k3x9q0a7b" "Read" 20 None).
Proof.
  pose proof (handleAddHabit_lookup "k3x9q0a7b" (mkForm "Read" "20") sampleState
                20 ltac:(discriminate) eq_refl ltac:(discriminate))
    as (_ & H & _).
  apply H; cbn; intros [E|[]]; discriminate E.
Defined.

Lemma map_id_rename (i name0 : string) (t : Z) (l : list Habit) :
  map id (map (fun h => if String.eqb (id h) i
                        then mkHabit (id h) name0 t (color h) else h) l)
  = map id l.
Proof.
  rewrite map_map; apply map_ext; intros h.
  now destruct (String.eqb (id h) i).
Qed.

Lemma map_id_handleUpdateHabit form s :
  map id (habits (handleUpdateHabit form s)) = map id (habits s).
Proof.
  unfold handleUpdateHabit.
  destruct (editingHabit s) as [editing|]; [|reflexivity].
  destruct (Js.parseInt (form_targetTime form)) as [t|]; [|reflexivity].
  destruct (negb (form_name form =? "")%string && negb (t =? 0))%bool;
    [|reflexivity].
  apply map_id_rename.
Qed.

(** X4.  Ids are never changed and never become ambiguous by an edit, a
    deletion or a logged entry: the list of ids after an edit is the list
    before, the one after a deletion a part of it, and when the ids were
    distinct they stay so. *)
Theorem habit_ids_stay_distinct :
  forall (s : AppState),
    (forall form, map id (habits (handleUpdateHabit form s)) = map id (habits s))
    /\ (forall c i,
          map id (habits (handleDeleteHabit c i s))
          = filter (fun j => if c then negb (String.eqb j i) else true)
              (map id (habits s)))
    /\ (forall h d st t n, habits (updateEntry h d st t n s) = habits s)
    /\ (NoDup (map id (habits s)) ->
        (forall form, NoDup (map id (habits (handleUpdateHabit form s))))
        /\ (forall c i, NoDup (map id (habits (handleDeleteHabit c i s))))).
Proof.
  intros s.
  assert (D : forall c i,
             map id (habits (handleDeleteHabit c i s))
             = filter (fun j => if c then negb (String.eqb j i) else true)
                 (map id (habits s))).
  { intros c i; destruct c.
    - rewrite habits_handleDeleteHabit.
      induction (habits s) as [|h l IH]; cbn; [reflexivity|].
      destruct (String.eqb (id h) i); cbn; now rewrite IH.
    - rewrite handleDeleteHabit_declined.
      induction (map id (habits s)) as [|j l IH]; cbn; [reflexivity|].
      now rewrite <- IH. }
  split; [intros form; apply map_id_handleUpdateHabit|].
  split; [exact D|].
  split; [reflexivity|].
  intros Hnd; split.
  - intros form; now rewrite map_id_handleUpdateHabit.
  - intros c i; rewrite D; now apply NoDup_filter.
Qed.

Lemma filter_all_true {A} (p : A -> bool) (l : list A) :
  (forall x, In x l -> p x = true) -> filter p l = l.
Proof.
  induction l as [|a l IH]; cbn; intros H; [reflexivity|].
  rewrite (H a) by now left.
  f_equal; apply IH; intros x Hx; apply H; now right.
Qed.

(** X5.  Deleting an id that no habit and no entry carries changes neither
    list; deleting the same id twice is deleting it once; and two deletions
    give the same lists in either order. *)
Theorem handleDeleteHabit_absent_idempotent_commutes :
  forall (s : AppState) (i j : string),
    ((forall h, In h (habits s) -> id h <> i) ->
     (forall e, In e (entries s) -> habitId e <> i) ->
     habits (handleDeleteHabit true i s) = habits s
     /\ entries (handleDeleteHabit true i s) = entries s)
    /\ handleDeleteHabit true i (handleDeleteHabit true i s)
       = handleDeleteHabit true i s
    /\ handleDeleteHabit true i (handleDeleteHabit true j s)
       = handleDeleteHabit true j (handleDeleteHabit true i s).
Proof.
  intros s i j; split; [|split].
  - intros Hh He; rewrite habits_handleDeleteHabit, entries_handleDeleteHabit.
    split; apply filter_all_true; intros x Hx; apply negb_eqb_true; auto.
  - unfold handleDeleteHabit, setEditingHabit, setEntries, setHabits; cbn.
    f_equal; rewrite filter_filter_and; apply filter_ext; intros x;
      now rewrite andb_diag.
  - unfold handleDeleteHabit, setEditingHabit, setEntries, setHabits; cbn.
    f_equal; rewrite !filter_filter_and; apply filter_ext; intros x;
      apply andb_comm.
Qed.

(* ================================================================= *)
(** ** More on the entries *)

(** X6.  While no two entries share habit and day, [getEntry] returns
    every entry of the list when asked for its habit and day. *)
Theorem getEntry_finds_every_entry :
  forall (s : AppState) (e : HabitEntry),
    uniqueKeys (entries s) ->
    In e (entries s) ->
    getEntry (habitId e) (date e) s = Some e.
Proof.
  intros s e; rewrite getEntry_find; unfold uniqueKeys.
  induction (entries s) as [|a l IH]; cbn [map find In]; intros Hnd Hin;
    [contradiction|].
  apply NoDup_cons_iff in Hnd as [Hfresh Hnd].
  destruct Hin as [->|Hin].
  - now rewrite (proj2 (forKey_true _ _ e) (conj eq_refl eq_refl)).
  - destruct (forKey (habitId e) (date e) a) eqn:E; [|now apply IH].
    exfalso; apply Hfresh.
    apply forKey_entryKey in E; rewrite E.
    now apply (in_map entryKey) in Hin.
Qed.

Lemma getEntry_finds_every_entry_witness :
  getEntry "h1" "2024-01-05" loggedState = Some loggedEntry.
Proof.
  apply (getEntry_finds_every_entry loggedState loggedEntry).
  - unfold uniqueKeys; cbn; constructor; [intros []|constructor].
  - left; reflexivity.
Defined.

Lemma length_filter_split {A} (p : A -> bool) (l : list A) :
  (List.length (filter p l) + List.length (filter (fun x => negb (p x)) l)
   = List.length l)%nat.
Proof.
  induction l as [|a l IH]; cbn; [reflexivity|].
  destruct (p a); cbn; lia.
Qed.

Lemma unique_key_count (h d : string) (l : list HabitEntry) :
  uniqueKeys l -> (List.length (filter (forKey h d) l) <= 1)%nat.
Proof.
  unfold uniqueKeys; induction l as [|a l IH]; cbn; intros Hnd; [lia|].
  apply NoDup_cons_iff in Hnd as [Hfresh Hnd].
  destruct (forKey h d a) eqn:E; [|now apply IH].
  cbn; enough (filter (forKey h d) l = []) as -> by (cbn; lia).
  destruct (filter (forKey h d) l) as [|x r] eqn:F; [reflexivity|].
  exfalso; apply Hfresh.
  assert (Hx : In x (filter (forKey h d) l)) by (rewrite F; now left).
  apply filter_In in Hx as [Hx Hk].
  apply forKey_entryKey in E, Hk; rewrite E, <- Hk.
  now apply in_map.
Qed.

(** X7.  Logging a habit and a day leaves every other pair alone: looking
    another pair up gives what it gave before, and the entries of the other
    pairs are the same, in the same order.  While pairs are unique the list
    grows by one entry when the pair was not logged, and keeps its length
    when it was. *)
Theorem updateEntry_frame :
  forall (s : AppState) (h d : string) (st : HabitStatus) (t : Z)
         (n : option string),
    let s' := updateEntry h d st t n s in
    (forall h' d', (h', d') <> (h, d) -> getEntry h' d' s' = getEntry h' d' s)
    /\ filter (fun e => negb (forKey h d e)) (entries s')
       = filter (fun e => negb (forKey h d e)) (entries s)
    /\ (uniqueKeys (entries s) ->
        List.length (entries s')
        = match getEntry h d s with
          | Some _ => List.length (entries s)
          | None => S (List.length (entries s))
          end).
Proof.
  intros s h d st t n s'; subst s'; split; [|split].
  - intros h' d' Hne; now apply getEntry_updateEntry_other.
  - rewrite entries_updateEntry, filter_app; cbn [filter].
    rewrite forKey_same; cbn [negb]; rewrite app_nil_r.
    rewrite filter_filter_and; apply filter_ext; intros x; apply andb_diag.
  - intros Hu; rewrite entries_updateEntry, length_app; cbn [List.length].
    pose proof (length_filter_split (forKey h d) (entries s)) as Hsplit.
    pose proof (unique_key_count h d (entries s) Hu) as Hle.
    rewrite getEntry_find.
    destruct (find (forKey h d) (entries s)) as [e|] eqn:F.
    + apply find_some in F as [Hin Hk].
      assert (Hpos : In e (filter (forKey h d) (entries s)))
        by (apply filter_In; tauto).
      destruct (filter (forKey h d) (entries s)); [contradiction|].
      cbn in *; lia.
    + assert (E : filter (forKey h d) (entries s) = []).
      { destruct (filter (forKey h d) (entries s)) as [|x r] eqn:G;
          [reflexivity|].
        assert (Hx : In x (filter (forKey h d) (entries s)))
          by (rewrite G; now left).
        apply filter_In in Hx as [Hx Hk].
        apply (proj1 (find_none_iff _ _)) with (x := x) in F; congruence. }
      rewrite E in Hsplit; cbn in Hsplit; lia.
Qed.

(* ================================================================= *)
(** ** The calendar *)

Ltac dlia := Z.div_mod_to_equations; lia.

Ltac split_ifs :=
  repeat match goal with
         | |- context [if ?a <? ?b then _ else _] => destruct (Z.ltb_spec a b)
         | |- context [if ?a <=? ?b then _ else _] => destruct (Z.leb_spec a b)
         | |- context [if ?a =? ?b then _ else _] => destruct (Z.eqb_spec a b)
         | H : context [if ?a =? ?b then _ else _] |- _ =>
             revert H; destruct (Z.eqb_spec a b); intros H
         end.

Ltac norm_offsets :=
  repeat match goal with
         | |- context [(153 * ?k + 2) / 5] =>
             let v := eval vm_compute in ((153 * k + 2) / 5) in
             change ((153 * k + 2) / 5) with v
         | H : context [(153 * ?k + 2) / 5] |- _ =>
             let v := eval vm_compute in ((153 * k + 2) / 5) in
             change ((153 * k + 2) / 5) with v in H
         end.

Ltac closed_tests :=
  cbn [Z.leb Z.ltb Z.eqb Pos.eqb Z.compare Pos.compare Pos.compare_cont
       Z.add Pos.add Pos.add_carry Pos.succ].

(** The day number of the calendar fields of a day number is that day
    number. *)
Lemma daysFromCivil_civilFromDays (z : Z) :
  let '(y, m, d) := civilFromDays z in daysFromCivil y m d = z.
Proof.
  unfold civilFromDays; cbv zeta.
  set (era := (z + 719468) / 146097).
  set (doe := z + 719468 - era * 146097).
  assert (Hdoe : 0 <= doe <= 146096) by (subst doe era; dlia).
  assert (Hz : z = era * 146097 + doe - 719468) by (subst doe; lia).
  clearbody doe era; subst z.
  set (yoe := (doe - doe / 1460 + doe / 36524 - doe / 146096) / 365).
  assert (Hyoe : 0 <= yoe <= 399) by (subst yoe; dlia).
  set (doy := doe - (365 * yoe + yoe / 4 - yoe / 100)).
  assert (Hdoy : 0 <= doy <= 365) by (subst doy yoe; dlia).
  assert (Hdoe' : doe = yoe * 365 + yoe / 4 - yoe / 100 + doy)
    by (subst doy; lia).
  clearbody doy yoe.
  set (mp := (5 * doy + 2) / 153).
  assert (Hmp : 0 <= mp <= 11) by (subst mp; dlia).
  set (d := doy - (153 * mp + 2) / 5 + 1).
  assert (Hd : doy = (153 * mp + 2) / 5 + d - 1) by (subst d; lia).
  clearbody d.
  assert (Hera : (yoe + era * 400) / 400 = era) by dlia.
  unfold daysFromCivil.
  destruct (Z.ltb_spec mp 10).
  - destruct (Z.leb_spec (mp + 3) 2); [lia|].
    destruct (Z.ltb_spec 2 (mp + 3)); [|lia].
    replace (mp + 3 - 3) with mp by lia.
    cbv zeta; rewrite Hera; dlia.
  - destruct (Z.leb_spec (mp - 9) 2); [|lia].
    destruct (Z.ltb_spec 2 (mp - 9)); [lia|].
    replace (mp - 9 + 9) with mp by lia.
    cbv zeta.
    replace (yoe + era * 400 + 1 - 1) with (yoe + era * 400) by lia.
    rewrite Hera; dlia.
Qed.

Lemma civil_shifted (era yoe doy : Z) :
  0 <= yoe <= 399 -> 0 <= doy ->
  yearStart yoe + doy < (if yoe =? 399 then 146097 else yearStart (yoe + 1)) ->
  civilFromDays (era * 146097 + (yearStart yoe + doy) - 719468)
  = let mp := (5 * doy + 2) / 153 in
    let d := doy - (153 * mp + 2) / 5 + 1 in
    let m := if mp <? 10 then mp + 3 else mp - 9 in
    (if m <=? 2 then yoe + era * 400 + 1 else yoe + era * 400, m, d).
Proof.
  intros Hyoe Hdoy Hlen; unfold civilFromDays, yearStart in *.
  assert (Hlen' : yoe * 365 + yoe / 4 - yoe / 100 + doy
                  < (yoe + 1) * 365 + (yoe + 1) / 4 - (yoe + 1) / 100
                    + (if yoe =? 399 then 1 else 0)).
  { destruct (Z.eqb_spec yoe 399); [subst; cbn in *; lia|lia]. }
  clear Hlen.
  assert (Hb : 0 <= yoe * 365 + yoe / 4 - yoe / 100 + doy <= 146096).
  { destruct (Z.eqb_spec yoe 399); dlia. }
  set (doe := yoe * 365 + yoe / 4 - yoe / 100 + doy) in *.
  replace (era * 146097 + doe - 719468 + 719468) with (doe + era * 146097)
    by ring.
  rewrite Z.div_add, (Z.div_small doe) by lia.
  cbn [Z.add].
  replace (doe + era * 146097 - era * 146097) with doe by ring.
  assert (E : (doe - doe / 1460 + doe / 36524 - doe / 146096) / 365 = yoe).
  { subst doe; destruct (Z.eqb_spec yoe 399); dlia. }
  rewrite E.
  replace (doe - (365 * yoe + yoe / 4 - yoe / 100)) with doy
    by (subst doe; ring).
  reflexivity.
Qed.

Lemma daysFromCivil_shifted (y m d : Z) :
  let ys := if m <=? 2 then y - 1 else y in
  let mp := if 2 <? m then m - 3 else m + 9 in
  daysFromCivil y m d
  = (ys / 400) * 146097
    + (yearStart (ys - ys / 400 * 400) + ((153 * mp + 2) / 5 + d - 1))
    - 719468.
Proof. unfold daysFromCivil, yearStart; cbv zeta; ring. Qed.

(** The calendar fields of the day number of a date of the calendar are
    that date. *)
Lemma civilFromDays_daysFromCivil (y m d : Z) :
  1 <= m <= 12 -> 1 <= d <= daysInMonth y m ->
  civilFromDays (daysFromCivil y m d) = (y, m, d).
Proof.
  intros Hm Hd.
  assert (Hlen : 1 <= d
                 /\ daysFromCivil y m d
                    < (if m =? 12 then daysFromCivil (y + 1) 1 1
                       else daysFromCivil y (m + 1) 1)).
  { unfold daysInMonth in Hd; unfold daysFromCivil in *.
    destruct (m =? 12); cbv zeta in *; lia. }
  clear Hd; destruct Hlen as [Hd1 Hlen].
  rewrite (daysFromCivil_shifted y m d) in *.
  assert (C : m = 1 \/ m = 2 \/ m = 3 \/ m = 4 \/ m = 5 \/ m = 6 \/ m = 7
              \/ m = 8 \/ m = 9 \/ m = 10 \/ m = 11 \/ m = 12) by lia.
  destruct C as [->|[->|[->|[->|[->|[->|[->|[->|[->|[->|[->| ->]]]]]]]]]]].
  all: cbv zeta in *.
  all: rewrite ?(daysFromCivil_shifted (y + 1) 1 1),
         ?(daysFromCivil_shifted y _ 1) in Hlen.
  all: cbv zeta in *.
  all: cbn [Z.leb Z.ltb Z.eqb Pos.eqb Z.compare Pos.compare Pos.compare_cont
            Z.add Pos.add Pos.succ] in Hlen.
  all: cbn [Z.leb Z.ltb Z.eqb Pos.eqb Z.compare Pos.compare Pos.compare_cont].
  all: match goal with
       | |- civilFromDays (?ys / 400 * 146097 + _ - 719468) = _ =>
           set (era := ys / 400) in *
       end.
  all: match goal with
       | |- civilFromDays (?e * 146097 + (yearStart ?yoe + ?doy) - 719468) = _ =>
           assert (Hyoe : 0 <= yoe <= 399) by (subst e; dlia);
           assert (Hbound : yearStart yoe + doy
                            < (if yoe =? 399 then 146097
                               else yearStart (yoe + 1)))
             by (unfold yearStart in *; subst e; split_ifs; dlia);
           rewrite (civil_shifted e yoe doy Hyoe ltac:(dlia) Hbound)
       end.
  all: cbv zeta.
  all: match goal with
       | |- (_, _, _) = (_, ?m, _) =>
           assert (Hmp : (5 * ((153 * (if 2 <? m then m - 3 else m + 9) + 2) / 5
                               + d - 1) + 2) / 153
                         = (if 2 <? m then m - 3 else m + 9))
             by (cbn [Z.ltb Z.compare Pos.compare Pos.compare_cont];
                 unfold yearStart in *; split_ifs; dlia)
       end.
  all: cbn [Z.ltb Z.compare Pos.compare Pos.compare_cont] in Hmp.
  all: rewrite Hmp.
  all: f_equal; [f_equal|]; split_ifs; try dlia.
Qed.

(** The calendar fields of a day number are a date of the calendar. *)
Lemma civilFromDays_valid (z : Z) :
  let '(y, m, d) := civilFromDays z in
  1 <= m <= 12 /\ 1 <= d <= daysInMonth y m.
Proof.
  unfold civilFromDays; cbv zeta.
  set (era := (z + 719468) / 146097).
  set (doe := z + 719468 - era * 146097).
  assert (Hdoe : 0 <= doe <= 146096) by (subst doe era; dlia).
  clearbody doe era; clear z.
  set (yoe := (doe - doe / 1460 + doe / 36524 - doe / 146096) / 365).
  assert (Hyoe : 0 <= yoe <= 399) by (subst yoe; dlia).
  set (doy := doe - (365 * yoe + yoe / 4 - yoe / 100)).
  assert (Hdoy : 0 <= doy) by (subst doy yoe; dlia).
  assert (Hlen : yearStart yoe + doy
                 < (if yoe =? 399 then 146097 else yearStart (yoe + 1))).
  { unfold yearStart; subst doy yoe; split_ifs; dlia. }
  assert (Hdoy2 : doy <= 365) by (unfold yearStart in Hlen; split_ifs; dlia).
  clearbody doy; clearbody yoe; clear doe Hdoe.
  set (mp := (5 * doy + 2) / 153).
  assert (Hmp : 0 <= mp <= 11) by (subst mp; dlia).
  set (d := doy - (153 * mp + 2) / 5 + 1).
  assert (Hd : 1 <= d) by (subst d mp; dlia).
  assert (Hnext : mp < 11 -> doy < (153 * (mp + 1) + 2) / 5)
    by (intros; subst mp; dlia).
  assert (Hdoy' : doy = (153 * mp + 2) / 5 + d - 1) by (subst d; lia).
  clearbody d; clearbody mp; subst doy.
  assert (C : mp = 0 \/ mp = 1 \/ mp = 2 \/ mp = 3 \/ mp = 4 \/ mp = 5
              \/ mp = 6 \/ mp = 7 \/ mp = 8 \/ mp = 9 \/ mp = 10 \/ mp = 11)
    by lia.
  destruct C as [->|[->|[->|[->|[->|[->|[->|[->|[->|[->|[->| ->]]]]]]]]]]].
  all: cbn [Z.leb Z.ltb Z.eqb Pos.eqb Z.compare Pos.compare Pos.compare_cont
            Z.add Z.sub Pos.add Pos.add_carry Pos.succ Z.pos_sub Z.opp
            Pos.pred_double Z.succ_double Z.pred_double Z.double].
  all: split; [lia|split; [assumption|]].
  all: unfold daysInMonth, daysFromCivil; cbv zeta.
  all: closed_tests.
  all: rewrite ?Z.add_simpl_r.
  all: try (specialize (Hnext ltac:(lia))).
  all: norm_offsets.
  all: try lia.
  unfold yearStart in *.
  assert (E0 : (yoe + era * 400) / 400 = era) by dlia.
  rewrite E0.
  replace (yoe + era * 400 - era * 400) with yoe by ring.
  destruct (Z.eq_dec yoe 399) as [->|Hne].
  - assert (E1 : (399 + era * 400 + 1) / 400 = era + 1) by dlia.
    rewrite E1.
    replace (399 + era * 400 + 1 - (era + 1) * 400) with 0 by ring.
    cbn [Z.eqb Pos.eqb] in Hlen; dlia.
  - assert (E1 : (yoe + era * 400 + 1) / 400 = era) by dlia.
    rewrite E1.
    replace (yoe + era * 400 + 1 - era * 400) with (yoe + 1) by ring.
    split_ifs; lia.
Qed.

Lemma daysInMonth_bounds (y m : Z) :
  1 <= m <= 12 -> 28 <= daysInMonth y m <= 31.
Proof.
  intros Hm.
  assert (C : m = 1 \/ m = 2 \/ m = 3 \/ m = 4 \/ m = 5 \/ m = 6 \/ m = 7
              \/ m = 8 \/ m = 9 \/ m = 10 \/ m = 11 \/ m = 12) by lia.
  unfold daysInMonth, daysFromCivil.
  destruct C as [->|[->|[->|[->|[->|[->|[->|[->|[->|[->|[->| ->]]]]]]]]]]].
  all: cbv zeta; closed_tests; rewrite ?Z.add_simpl_r; norm_offsets.
  all: try lia.
  destruct (Z.eq_dec ((y - 1) mod 400) 399); dlia.
Qed.

(* ================================================================= *)
(** ** Dates as the program writes and reads them *)

Lemma msPerDay_neq : msPerDay <> 0.
Proof. discriminate. Qed.

Lemma dayNumber_midnight (z : Z) : dayNumber (z * msPerDay) = z.
Proof. unfold dayNumber; apply Z.div_mul, msPerDay_neq. Qed.

Lemma startOfDay_midnight (z : Z) : startOfDay (z * msPerDay) = z * msPerDay.
Proof. unfold startOfDay; now rewrite dayNumber_midnight. Qed.

Lemma daysFromCivil_day (y m d : Z) :
  daysFromCivil y m d = daysFromCivil y m 1 + (d - 1).
Proof. unfold daysFromCivil; cbv zeta; ring. Qed.

Lemma in_range (P : Z -> bool) (lo len z : Z) :
  forallb P (map Z.of_nat (seq (Z.to_nat lo) (Z.to_nat len))) = true ->
  0 <= lo <= z -> z < lo + len ->
  P z = true.
Proof.
  intros Hall Hlo Hz.
  apply (proj1 (forallb_forall _ _) Hall).
  apply in_map_iff; exists (Z.to_nat z); split; [lia|].
  apply in_seq; lia.
Qed.

Lemma fourDigitsOk_range (y : Z) : 1 <= y <= 9999 -> fourDigitsOk y = true.
Proof.
  intros Hy; apply (in_range fourDigitsOk 1 9999); [|lia|lia].
  vm_compute; reflexivity.
Qed.

Lemma twoDigitsOk_range (n : Z) : 1 <= n <= 31 -> twoDigitsOk n = true.
Proof.
  intros Hn; apply (in_range twoDigitsOk 1 31); [|lia|lia].
  vm_compute; reflexivity.
Qed.

Lemma fourDigits_shape (y : Z) :
  1 <= y <= 9999 ->
  exists a b c e h l,
    addLeadingZeros y 4 = String a (String b (String c (String e "")))
    /\ twoDigits a b = Some h /\ twoDigits c e = Some l /\ h * 100 + l = y.
Proof.
  intros Hy; pose proof (fourDigitsOk_range y Hy) as H.
  unfold fourDigitsOk in H.
  destruct (addLeadingZeros y 4) as [|a [|b [|c [|e [|? ?]]]]]; try discriminate.
  destruct (twoDigits a b) as [h|] eqn:Hab; [|discriminate].
  destruct (twoDigits c e) as [l|] eqn:Hce; [|discriminate].
  apply Z.eqb_eq in H.
  exists a, b, c, e, h, l; auto.
Qed.

Lemma twoDigits_shape (n : Z) :
  1 <= n <= 31 ->
  exists a b,
    addLeadingZeros n 2 = String a (String b "") /\ twoDigits a b = Some n.
Proof.
  intros Hn; pose proof (twoDigitsOk_range n Hn) as H.
  unfold twoDigitsOk in H.
  destruct (addLeadingZeros n 2) as [|a [|b [|? ?]]]; try discriminate.
  destruct (twoDigits a b) as [v|] eqn:Hab; [|discriminate].
  apply Z.eqb_eq in H; subst v.
  exists a, b; auto.
Qed.

(** X8.  A date that the grid or the trend writes with [format] is read
    back by [parseISO], as the journal does, as the start of the same day,
    for the years 1 to 9999. *)
Theorem parseISO_format_yyyy_MM_dd :
  forall d : Date,
    fourDigitYear d ->
    parseISO (format_yyyy_MM_dd d) = Some (startOfDay d).
Proof.
  intros d Hy.
  unfold fourDigitYear, format_yyyy_MM_dd, formatYear, getFullYear, getMonth1,
    getDate, startOfDay in *.
  pose proof (civilFromDays_valid (dayNumber d)) as Hv.
  pose proof (daysFromCivil_civilFromDays (dayNumber d)) as Hr.
  destruct (civilFromDays (dayNumber d)) as [[y m] dd].
  destruct Hv as [Hm Hd].
  pose proof (daysInMonth_bounds y m Hm) as Hb.
  destruct (Z.ltb_spec 0 y); [|lia].
  destruct (fourDigits_shape y Hy) as (a & b & c & e & h & l & -> & Hab & Hce & Hyl).
  destruct (twoDigits_shape m ltac:(lia)) as (m1 & m2 & -> & Hm12).
  destruct (twoDigits_shape dd ltac:(lia)) as (d1 & d2 & -> & Hd12).
  cbn [append parseISO].
  rewrite Hab, Hce, Hm12, Hd12, Hyl.
  destruct (Z.leb_spec 1 m); [|lia].
  destruct (Z.leb_spec m 12); [|lia].
  destruct (Z.leb_spec 1 dd); [|lia].
  destruct (Z.leb_spec dd (daysInMonth y m)); [|lia].
  cbn [andb]; now rewrite Hr.
Qed.

Lemma parseISO_format_yyyy_MM_dd_witness :
  fourDigitYear clockJan5
  /\ parseISO (format_yyyy_MM_dd clockJan5) = Some (startOfDay clockJan5).
Proof.
  assert (H : fourDigitYear clockJan5) by (vm_compute; split; discriminate).
  exact (conj H (parseISO_format_yyyy_MM_dd clockJan5 H)).
Defined.

Lemma format_yyyy_MM_dd_inj (d1 d2 : Date) :
  fourDigitYear d1 -> fourDigitYear d2 ->
  format_yyyy_MM_dd d1 = format_yyyy_MM_dd d2 ->
  dayNumber d1 = dayNumber d2.
Proof.
  intros H1 H2 E.
  pose proof (parseISO_format_yyyy_MM_dd d1 H1) as P1.
  pose proof (parseISO_format_yyyy_MM_dd d2 H2) as P2.
  rewrite E, P2 in P1; injection P1 as P1.
  unfold startOfDay in P1.
  apply Z.mul_cancel_r in P1; [congruence|apply msPerDay_neq].
Qed.

(* ================================================================= *)
(** ** The days of the month in view *)

Lemma nth_error_seq_0 (n k j : nat) :
  nth_error (seq 0 n) k = Some j -> j = k /\ (k < n)%nat.
Proof.
  intros H.
  assert (Hlt : (k < n)%nat).
  { rewrite <- (length_seq n 0); apply nth_error_Some; congruence. }
  split; [|assumption].
  rewrite (nth_error_nth' _ 0%nat) in H by now rewrite length_seq.
  rewrite seq_nth in H by assumption.
  injection H as <-; reflexivity.
Qed.

Lemma days_unfold (s : AppState) :
  let '(y, m, _) := civilFromDays (dayNumber (viewDate s)) in
  days s
  = map (fun k => daysFromCivil y m (Z.of_nat k + 1) * msPerDay)
        (seq 0 (Z.to_nat (daysInMonth y m))).
Proof.
  unfold days, eachDayOfInterval, startOfMonth, lastDayOfMonth, getFullYear,
    getMonth1.
  destruct (civilFromDays (dayNumber (viewDate s))) as [[y m] dd].
  rewrite !dayNumber_midnight.
  replace ((if m =? 12 then daysFromCivil (y + 1) 1 1
            else daysFromCivil y (m + 1) 1) - 1 - daysFromCivil y m 1 + 1)
    with (daysInMonth y m) by (unfold daysInMonth; ring).
  apply map_ext; intros k.
  rewrite (daysFromCivil_day y m (Z.of_nat k + 1)); f_equal; ring.
Qed.

(** X9.  The rows of the grid are the days of the month of [viewDate], one
    per day: there are 28 to 31 of them; the one at index [k] is the start
    of the day [k + 1] of that month and year; and the start of every day of
    that month and year is among them. *)
Theorem days_are_the_days_of_the_month :
  forall s : AppState,
    (28 <= List.length (days s) <= 31)%nat
    /\ (forall k day,
          nth_error (days s) k = Some day ->
          getFullYear day = getFullYear (viewDate s)
          /\ getMonth1 day = getMonth1 (viewDate s)
          /\ getDate day = Z.of_nat k + 1
          /\ startOfDay day = day)
    /\ (forall d,
          getFullYear d = getFullYear (viewDate s) ->
          getMonth1 d = getMonth1 (viewDate s) ->
          In (startOfDay d) (days s)).
Proof.
  intros s.
  pose proof (days_unfold s) as Hdays.
  pose proof (civilFromDays_valid (dayNumber (viewDate s))) as Hv.
  unfold getFullYear, getMonth1, getDate.
  destruct (civilFromDays (dayNumber (viewDate s))) as [[y m] dd].
  destruct Hv as [Hm Hdd].
  pose proof (daysInMonth_bounds y m Hm) as Hb.
  rewrite Hdays; split; [|split].
  - rewrite length_map, length_seq; lia.
  - intros k day Hk.
    rewrite nth_error_map in Hk.
    destruct (nth_error (seq 0 (Z.to_nat (daysInMonth y m))) k) as [j|] eqn:Hj;
      [|discriminate].
    injection Hk as <-.
    apply nth_error_seq_0 in Hj as [-> Hlt].
    rewrite dayNumber_midnight, startOfDay_midnight.
    rewrite civilFromDays_daysFromCivil by lia.
    repeat split.
  - intros d Hy Hmo.
    pose proof (civilFromDays_valid (dayNumber d)) as Hvd.
    pose proof (daysFromCivil_civilFromDays (dayNumber d)) as Hrd.
    destruct (civilFromDays (dayNumber d)) as [[y' m'] d']; subst y' m'.
    destruct Hvd as [_ Hd'].
    apply in_map_iff; exists (Z.to_nat (d' - 1)); split.
    + unfold startOfDay; rewrite <- Hrd; f_equal; f_equal; lia.
    + apply in_seq; lia.
Qed.

Lemma days_fourDigitYear (s : AppState) (day : Date) :
  fourDigitYear (viewDate s) -> In day (days s) ->
  fourDigitYear day /\ startOfDay day = day.
Proof.
  intros Hy Hin.
  apply In_nth_error in Hin as [k Hk].
  destruct (days_are_the_days_of_the_month s) as (_ & H & _).
  destruct (H k day Hk) as (Hyear & _ & _ & Hmid).
  unfold fourDigitYear in *; rewrite Hyear; tauto.
Qed.

Lemma days_format_inj (s : AppState) (d1 d2 : Date) :
  fourDigitYear (viewDate s) -> In d1 (days s) -> In d2 (days s) ->
  format_yyyy_MM_dd d1 = format_yyyy_MM_dd d2 -> d1 = d2.
Proof.
  intros Hy H1 H2 E.
  destruct (days_fourDigitYear s d1 Hy H1) as [Y1 M1].
  destruct (days_fourDigitYear s d2 Hy H2) as [Y2 M2].
  pose proof (format_yyyy_MM_dd_inj d1 d2 Y1 Y2 E) as Hn.
  etransitivity; [symmetry; exact M1|].
  etransitivity; [|exact M2].
  unfold startOfDay; rewrite Hn; reflexivity.
Qed.

Lemma NoDup_days (s : AppState) : NoDup (days s).
Proof.
  pose proof (days_unfold s) as Hdays.
  destruct (civilFromDays (dayNumber (viewDate s))) as [[y m] dd].
  rewrite Hdays.
  apply Finite.Injective_map_NoDup; [|apply seq_NoDup].
  intros a b E.
  apply Z.mul_cancel_r in E; [|apply msPerDay_neq].
  rewrite (daysFromCivil_day y m (Z.of_nat a + 1)),
    (daysFromCivil_day y m (Z.of_nat b + 1)) in E; lia.
Qed.

(* ================================================================= *)
(** ** Moving between months *)

Lemma first_of_month_fields (y m : Z) :
  1 <= m <= 12 ->
  let v := daysFromCivil y m 1 * msPerDay in
  getFullYear v = y /\ getMonth1 v = m /\ getDate v = 1
  /\ startOfMonth v = v /\ timeOfDay v = 0.
Proof.
  intros Hm v; subst v.
  pose proof (daysInMonth_bounds y m Hm) as Hb.
  unfold startOfMonth, timeOfDay, getFullYear, getMonth1, getDate.
  rewrite startOfDay_midnight, dayNumber_midnight.
  rewrite civilFromDays_daysFromCivil by lia.
  repeat split; ring.
Qed.

Lemma startOfMonth_shape (v : Date) :
  1 <= getMonth1 v <= 12
  /\ startOfMonth v = daysFromCivil (getFullYear v) (getMonth1 v) 1 * msPerDay.
Proof.
  pose proof (civilFromDays_valid (dayNumber v)) as Hv.
  unfold startOfMonth, getFullYear, getMonth1.
  destruct (civilFromDays (dayNumber v)) as [[y m] dd]; tauto.
Qed.

Lemma addMonths_first (v : Date) (k : Z) :
  startOfMonth v = v ->
  let months := getFullYear v * 12 + (getMonth1 v - 1) + k in
  addMonths v k = daysFromCivil (months / 12) (months mod 12 + 1) 1 * msPerDay.
Proof.
  intros Hv months.
  destruct (startOfMonth_shape v) as [Hm Hs]; rewrite Hv in Hs.
  destruct (first_of_month_fields (getFullYear v) (getMonth1 v) Hm)
    as (_ & _ & Hd & _ & Ht).
  cbv zeta in Hd, Ht; rewrite <- Hs in Hd, Ht.
  subst months; unfold addMonths; cbv zeta; rewrite Hd, Ht.
  set (months := getFullYear v * 12 + (getMonth1 v - 1) + k).
  assert (Hm' : 1 <= months mod 12 + 1 <= 12)
    by (pose proof (Z.mod_pos_bound months 12); lia).
  pose proof (daysInMonth_bounds (months / 12) (months mod 12 + 1) Hm').
  destruct (Z.leb_spec (daysInMonth (months / 12) (months mod 12 + 1)) 1);
    [lia|apply Z.add_0_r].
Qed.

Lemma addMonths_first_fields (v : Date) (k : Z) :
  startOfMonth v = v ->
  let v' := addMonths v k in
  startOfMonth v' = v'
  /\ getFullYear v' * 12 + getMonth1 v' = getFullYear v * 12 + getMonth1 v + k.
Proof.
  intros Hv v'; subst v'.
  rewrite (addMonths_first v k Hv); cbv zeta.
  set (months := getFullYear v * 12 + (getMonth1 v - 1) + k).
  assert (Hm' : 1 <= months mod 12 + 1 <= 12)
    by (pose proof (Z.mod_pos_bound months 12); lia).
  destruct (first_of_month_fields (months / 12) (months mod 12 + 1) Hm')
    as (Hy & Hm & _ & Hs & _).
  cbv zeta in *; rewrite Hy, Hm; split; [assumption|].
  pose proof (Z.div_mod months 12); subst months; lia.
Qed.

Lemma first_of_month_determined (v w : Date) :
  startOfMonth v = v -> startOfMonth w = w ->
  getFullYear v * 12 + getMonth1 v = getFullYear w * 12 + getMonth1 w ->
  v = w.
Proof.
  intros Hv Hw E.
  destruct (startOfMonth_shape v) as [Hmv Hsv].
  destruct (startOfMonth_shape w) as [Hmw Hsw].
  rewrite <- Hv, <- Hw, Hsv, Hsw.
  assert (getFullYear v = getFullYear w /\ getMonth1 v = getMonth1 w) as [-> ->]
    by lia.
  reflexivity.
Qed.

Lemma setViewDate_same (s : AppState) : setViewDate (viewDate s) s = s.
Proof. now destruct s. Qed.

Lemma setViewDate_twice (a b : Date) (s : AppState) :
  setViewDate a (setViewDate b s) = setViewDate a s.
Proof. reflexivity. Qed.

Lemma next_month_day (y m : Z) :
  1 <= m <= 12 ->
  let months := y * 12 + (m - 1) + 1 in
  daysFromCivil (months / 12) (months mod 12 + 1) 1
  = daysFromCivil y m 1 + daysInMonth y m.
Proof.
  intros Hm months; subst months; unfold daysInMonth.
  destruct (Z.eqb_spec m 12) as [->|Hne].
  - replace ((y * 12 + (12 - 1) + 1) / 12) with (y + 1) by dlia.
    replace ((y * 12 + (12 - 1) + 1) mod 12 + 1) with 1 by dlia.
    ring.
  - replace ((y * 12 + (m - 1) + 1) / 12) with y by dlia.
    replace ((y * 12 + (m - 1) + 1) mod 12 + 1) with (m + 1) by dlia.
    ring.
Qed.

Lemma length_days (s : AppState) :
  Z.of_nat (List.length (days s))
  = daysInMonth (getFullYear (viewDate s)) (getMonth1 (viewDate s)).
Proof.
  pose proof (days_unfold s) as Hdays.
  destruct (startOfMonth_shape (viewDate s)) as [Hm _].
  revert Hdays Hm; unfold getFullYear, getMonth1.
  destruct (civilFromDays (dayNumber (viewDate s))) as [[y m] dd].
  intros -> Hm.
  pose proof (daysInMonth_bounds y m Hm) as Hb.
  rewrite length_map, length_seq; apply Z2Nat.id; lia.
Qed.

Lemma next_month_starts_after_last_row (s : AppState) :
  startOfMonth (viewDate s) = viewDate s ->
  dayNumber (addMonths (viewDate s) 1)
  = dayNumber (viewDate s) + Z.of_nat (List.length (days s)).
Proof.
  intros Hv.
  rewrite (addMonths_first (viewDate s) 1 Hv), length_days.
  destruct (startOfMonth_shape (viewDate s)) as [Hm Hs].
  rewrite Hv in Hs.
  set (y := getFullYear (viewDate s)) in *.
  set (m := getMonth1 (viewDate s)) in *.
  clearbody y m.
  rewrite Hs, !dayNumber_midnight.
  now apply next_month_day.
Qed.

Lemma showPreviousMonth_showNextMonth (s : AppState) :
  startOfMonth (viewDate s) = viewDate s ->
  showPreviousMonth (showNextMonth s) = s
  /\ showNextMonth (showPreviousMonth s) = s.
Proof.
  intros Hv.
  unfold showNextMonth, showPreviousMonth, subMonths.
  cbn [viewDate setViewDate]; rewrite !setViewDate_twice.
  destruct (addMonths_first_fields (viewDate s) 1 Hv) as [Hn1 Hn2].
  destruct (addMonths_first_fields (viewDate s) (- (1)) Hv) as [Hp1 Hp2].
  destruct (addMonths_first_fields (addMonths (viewDate s) 1) (- (1)) Hn1)
    as [Ha1 Ha2].
  destruct (addMonths_first_fields (addMonths (viewDate s) (- (1))) 1 Hp1)
    as [Hb1 Hb2].
  rewrite (first_of_month_determined _ (viewDate s) Ha1 Hv) by lia.
  rewrite (first_of_month_determined _ (viewDate s) Hb1 Hv) by lia.
  split; apply setViewDate_same.
Qed.

(** X10.  While the month in view is kept as the first instant of a month,
    "Next Month" and "Previous Month" keep it so and move it by exactly one
    month; each undoes the other; and the next month starts on the day
    after the last row of the grid. *)
Theorem month_buttons :
  forall s : AppState,
    startOfMonth (viewDate s) = viewDate s ->
    let next := showNextMonth s in
    let prev := showPreviousMonth s in
    startOfMonth (viewDate next) = viewDate next
    /\ startOfMonth (viewDate prev) = viewDate prev
    /\ getFullYear (viewDate next) * 12 + getMonth1 (viewDate next)
       = getFullYear (viewDate s) * 12 + getMonth1 (viewDate s) + 1
    /\ getFullYear (viewDate prev) * 12 + getMonth1 (viewDate prev)
       = getFullYear (viewDate s) * 12 + getMonth1 (viewDate s) - 1
    /\ showPreviousMonth next = s
    /\ showNextMonth prev = s
    /\ dayNumber (viewDate next)
       = dayNumber (viewDate s) + Z.of_nat (List.length (days s)).
Proof.
  intros s Hv next prev; subst next prev.
  destruct (addMonths_first_fields (viewDate s) 1 Hv) as [Hn1 Hn2].
  destruct (addMonths_first_fields (viewDate s) (- (1)) Hv) as [Hp1 Hp2].
  destruct (showPreviousMonth_showNextMonth s Hv) as [Hpn Hnp].
  split; [exact Hn1|]. split; [exact Hp1|].
  split; [exact Hn2|]. split; [exact Hp2|].
  split; [exact Hpn|]. split; [exact Hnp|].
  now apply next_month_starts_after_last_row.
Qed.

Lemma month_buttons_witness :
  startOfMonth (viewDate sampleState) = viewDate sampleState
  /\ showPreviousMonth (showNextMonth sampleState) = sampleState.
Proof.
  assert (H : startOfMonth (viewDate sampleState) = viewDate sampleState)
    by reflexivity.
  destruct (month_buttons sampleState H) as (_ & _ & _ & _ & Hb & _).
  exact (conj H Hb).
Defined.

Lemma startOfMonth_idem (v : Date) : startOfMonth (startOfMonth v) = startOfMonth v.
Proof.
  destruct (startOfMonth_shape v) as [Hm ->].
  now destruct (first_of_month_fields (getFullYear v) (getMonth1 v) Hm)
    as (_ & _ & _ & H & _).
Qed.

Lemma startOfMonth_same_month (v : Date) :
  getFullYear (startOfMonth v) = getFullYear v
  /\ getMonth1 (startOfMonth v) = getMonth1 v.
Proof.
  destruct (startOfMonth_shape v) as [Hm ->].
  destruct (first_of_month_fields (getFullYear v) (getMonth1 v) Hm)
    as (Hy & Hmo & _); cbv zeta in *; tauto.
Qed.

Lemma viewDate_initialState (now : Date) :
  viewDate (initialState now) = startOfMonth now.
Proof. reflexivity. Qed.

Lemma showToday_unfold (s : AppState) (now : Date) :
  showToday s now
  = if negb (isSameMonth (viewDate s) now)
    then setViewDate (startOfMonth now) s else s.
Proof. reflexivity. Qed.

Lemma isSameMonth_startOfMonth (now : Date) :
  isSameMonth (startOfMonth now) now = true.
Proof.
  destruct (startOfMonth_same_month now) as [Hy Hm].
  unfold isSameMonth; rewrite Hy, Hm, !Z.eqb_refl; reflexivity.
Qed.

Lemma isSameMonth_showToday (s : AppState) (now : Date) :
  isSameMonth (viewDate (showToday s now)) now = true.
Proof.
  rewrite showToday_unfold.
  destruct (isSameMonth (viewDate s) now) eqn:E; cbn [negb].
  - exact E.
  - apply isSameMonth_startOfMonth.
Qed.

Lemma today_row (s : AppState) (now : Date) :
  isSameMonth (viewDate s) now = true -> In (startOfDay now) (days s).
Proof.
  intros H.
  destruct (days_are_the_days_of_the_month s) as (_ & _ & Hin).
  unfold isSameMonth in H; apply andb_true_iff in H as [Ey Em].
  apply Z.eqb_eq in Ey, Em.
  apply Hin; symmetry; assumption.
Qed.

(** X11.  The first render shows the month of the clock from its first
    instant.  The button "Today" keeps the month in view at a first instant
    of a month, and after it the month in view is the month of the clock and
    the grid has the row of the current day. *)
Theorem today_button :
  forall (s : AppState) (now : Date),
    startOfMonth (viewDate (initialState now)) = viewDate (initialState now)
    /\ isSameMonth (viewDate (initialState now)) now = true
    /\ isSameMonth (viewDate (showToday s now)) now = true
    /\ In (startOfDay now) (days (showToday s now))
    /\ (startOfMonth (viewDate s) = viewDate s ->
        startOfMonth (viewDate (showToday s now)) = viewDate (showToday s now))
    /\ (isSameMonth (viewDate s) now = true -> showToday s now = s).
Proof.
  intros s now.
  rewrite viewDate_initialState.
  split; [apply startOfMonth_idem|].
  split; [apply isSameMonth_startOfMonth|].
  split; [apply isSameMonth_showToday|].
  split; [apply today_row, isSameMonth_showToday|].
  rewrite showToday_unfold; split.
  - intros Hv; destruct (isSameMonth (viewDate s) now); cbn [negb];
      [exact Hv|apply startOfMonth_idem].
  - intros ->; reflexivity.
Qed.

(* ================================================================= *)
(** ** More on the grid *)

Lemma renderGrid_map (s : AppState) (now : Date) :
  renderGrid s now = map (fun day => renderRow s day now) (days s).
Proof. unfold renderGrid; apply mapClock_map. Qed.

Lemma renderRow_fields (s : AppState) (day now : Date) :
  rowKey (renderRow s day now) = format_yyyy_MM_dd day
  /\ isCurrentDay (renderRow s day now) = isSameDay day now
  /\ cells (renderRow s day now)
     = map (fun h => renderCell s day (format_yyyy_MM_dd day) h now) (habits s).
Proof.
  unfold renderRow, bind, ret, isToday, new_Date; cbn [rowKey isCurrentDay cells].
  now rewrite mapClock_map.
Qed.

Lemma renderCell_key (s : AppState) (day : Date) (dateStr : string)
    (h : Habit) (now : Date) :
  cellHabit (renderCell s day dateStr h now) = id h
  /\ cellDate (renderCell s day dateStr h now) = dateStr.
Proof. split; reflexivity. Qed.

Lemma NoDup_map_in {A B} (f : A -> B) (l : list A) :
  (forall x y, In x l -> In y l -> f x = f y -> x = y) ->
  NoDup l -> NoDup (map f l).
Proof.
  intros Hinj Hnd; induction Hnd as [|a l Ha Hl IH]; cbn [map]; constructor.
  - intros Hin; apply in_map_iff in Hin as (x & Hx & Hxin).
    assert (x = a) by (apply Hinj; [now right|now left|assumption]).
    now subst.
  - apply IH; intros x y Hx Hy; apply Hinj; now right.
Qed.

(** X12.  The keys that the grid gives to its rows are pairwise distinct
    while the year in view has four digits, and in every row the keys of
    the cells are pairwise distinct while the ids of the habits are. *)
Theorem grid_keys_distinct :
  forall (s : AppState) (now : Date),
    fourDigitYear (viewDate s) ->
    NoDup (map rowKey (renderGrid s now))
    /\ (NoDup (map id (habits s)) ->
        forall row, In row (renderGrid s now) ->
          NoDup (map (fun c => (cellHabit c, cellDate c)) (cells row))).
Proof.
  intros s now Hy; rewrite renderGrid_map; split.
  - rewrite map_map.
    rewrite (map_ext _ format_yyyy_MM_dd)
      by (intros day; apply renderRow_fields).
    apply NoDup_map_in; [|apply NoDup_days].
    intros d1 d2 H1 H2 E; exact (days_format_inj s d1 d2 Hy H1 H2 E).
  - intros Hids row Hrow.
    apply in_map_iff in Hrow as (day & <- & Hday).
    destruct (renderRow_fields s day now) as (_ & _ & ->).
    rewrite map_map; cbn [cellHabit cellDate renderCell].
    rewrite (map_ext _ (fun h => (id h, format_yyyy_MM_dd day)))
      by reflexivity.
    rewrite <- (map_map id (fun i => (i, format_yyyy_MM_dd day))).
    apply NoDup_map_in; [|assumption].
    intros x y _ _ E; now injection E.
Qed.

Lemma grid_keys_distinct_witness :
  fourDigitYear (viewDate sampleState)
  /\ NoDup (map rowKey (renderGrid sampleState clockJan5)).
Proof.
  assert (H : fourDigitYear (viewDate sampleState))
    by (vm_compute; split; discriminate).
  exact (conj H (proj1 (grid_keys_distinct sampleState clockJan5 H))).
Defined.

Lemma isSameDay_midnight (day now : Date) :
  startOfDay day = day ->
  isSameDay day now = (day =? startOfDay now).
Proof. intros H; unfold isSameDay; now rewrite H. Qed.

Lemma count_one {A} (p : A -> bool) (l : list A) (x : A) :
  NoDup l -> In x l -> (forall y, In y l -> p y = true <-> y = x) ->
  countIf p l = 1%nat.
Proof.
  intros Hnd; induction Hnd as [|a l Ha Hl IH]; intros Hin Hp; [contradiction|].
  cbn [countIf]; destruct Hin as [->|Hin].
  - rewrite (proj2 (Hp x (or_introl eq_refl)) eq_refl).
    enough (countIf p l = 0%nat) as -> by reflexivity.
    clear IH; induction l as [|b l IHl]; [reflexivity|].
    cbn [countIf].
    destruct (p b) eqn:E.
    + apply Hp in E; [|right; now left]; subst b; elim Ha; now left.
    + apply IHl.
      * intros H; apply Ha; now right.
      * now inversion Hl.
      * intros y [Hy|Hy]; apply Hp; [now left|right; now right].
  - destruct (p a) eqn:E.
    + apply Hp in E; [|now left]; subst a; contradiction.
    + apply IH; [assumption|].
      intros y Hy; apply Hp; now right.
Qed.

Lemma count_none {A} (p : A -> bool) (l : list A) :
  (forall y, In y l -> p y = false) -> countIf p l = 0%nat.
Proof.
  induction l as [|a l IH]; intros H; [reflexivity|].
  cbn [countIf]; rewrite (H a) by now left.
  apply IH; intros y Hy; apply H; now right.
Qed.

Lemma countIf_map {A B} (f : A -> B) (p : B -> bool) (l : list A) :
  countIf p (map f l) = countIf (fun x => p (f x)) l.
Proof. induction l as [|a l IH]; cbn; [reflexivity|now rewrite IH]. Qed.

Lemma days_same_month (s : AppState) (day : Date) :
  In day (days s) ->
  isSameMonth (viewDate s) day = true /\ startOfDay day = day.
Proof.
  intros Hin; apply In_nth_error in Hin as [k Hk].
  destruct (days_are_the_days_of_the_month s) as (_ & H & _).
  destruct (H k day Hk) as (Hy & Hm & _ & Hmid).
  unfold isSameMonth; rewrite Hy, Hm, !Z.eqb_refl; auto.
Qed.

Lemma isSameMonth_startOfDay (v now : Date) :
  isSameMonth v (startOfDay now) = isSameMonth v now.
Proof.
  unfold isSameMonth, getFullYear, getMonth1, startOfDay.
  now rewrite dayNumber_midnight.
Qed.

(** X13.  Exactly one row of the grid is marked as the current day when
    the month of the clock is in view, and none otherwise. *)
Theorem grid_marks_today_once :
  forall (s : AppState) (now : Date),
    countIf isCurrentDay (renderGrid s now)
    = if isSameMonth (viewDate s) now then 1%nat else 0%nat.
Proof.
  intros s now; rewrite renderGrid_map, countIf_map.
  destruct (isSameMonth (viewDate s) now) eqn:E.
  - apply (count_one _ _ (startOfDay now)).
    + apply NoDup_days.
    + now apply today_row.
    + intros day Hday.
      destruct (renderRow_fields s day now) as (_ & -> & _).
      destruct (days_same_month s day Hday) as [_ Hmid].
      rewrite (isSameDay_midnight day now Hmid); apply Z.eqb_eq.
  - apply count_none; intros day Hday.
    destruct (renderRow_fields s day now) as (_ & -> & _).
    destruct (days_same_month s day Hday) as [Hsame Hmid].
    rewrite (isSameDay_midnight day now Hmid).
    destruct (Z.eqb_spec day (startOfDay now)) as [->|]; [|reflexivity].
    rewrite isSameMonth_startOfDay, E in Hsame; discriminate Hsame.
Qed.

Lemma getEntry_logged (s : AppState) (h d : string) (st : HabitStatus) (t : Z)
    (n : option string) (h' d' : string) :
  getEntry h' d' (updateEntry h d st t n s)
  = if (String.eqb h' h && String.eqb d' d)%bool
    then Some (mkEntry h d st t n)
    else getEntry h' d' s.
Proof.
  destruct (String.eqb_spec h' h) as [->|Hh]; cbn [andb].
  - destruct (String.eqb_spec d' d) as [->|Hd].
    + apply getEntry_updateEntry_same.
    + apply getEntry_updateEntry_other; congruence.
  - apply getEntry_updateEntry_other; congruence.
Qed.

Lemma renderCell_getEntry (s s' : AppState) (day : Date) (dateStr : string)
    (h : Habit) (now : Date) :
  getEntry (id h) dateStr s' = getEntry (id h) dateStr s ->
  renderCell s' day dateStr h now = renderCell s day dateStr h now.
Proof. unfold renderCell, bind, ret; now intros ->. Qed.

(** X14.  Logging a habit on a day of the grid changes the cell of that
    habit and day and no other cell of the month: the cell shows the
    minutes logged against the target and is no longer empty, and the cell
    of every other habit or day is what it was. *)
Theorem log_changes_one_cell :
  forall (s : AppState) (now day : Date) (habit : Habit) (st : HabitStatus)
         (t : Z) (n : option string),
    fourDigitYear (viewDate s) ->
    In day (days s) ->
    let s' := updateEntry (id habit) (format_yyyy_MM_dd day) st t n s in
    days s' = days s
    /\ habits s' = habits s
    /\ (exists c,
          cellText (renderCell s' day (format_yyyy_MM_dd day) habit now)
          = Some (mkCellText c t (targetTime habit)
                    (percentOfTarget t (targetTime habit))))
    /\ plusHint (renderCell s' day (format_yyyy_MM_dd day) habit now) = false
    /\ (forall day' habit',
          In day' (days s) ->
          id habit' <> id habit \/ day' <> day ->
          renderCell s' day' (format_yyyy_MM_dd day') habit' now
          = renderCell s day' (format_yyyy_MM_dd day') habit' now).
Proof.
  intros s now day habit st t n Hy Hday s'; subst s'.
  split; [reflexivity|]. split; [reflexivity|].
  split; [|split].
  - unfold renderCell, bind, ret.
    rewrite getEntry_updateEntry_same; cbn.
    eexists; reflexivity.
  - unfold renderCell, bind, ret.
    rewrite getEntry_updateEntry_same; reflexivity.
  - intros day' habit' Hday' Hne.
    apply renderCell_getEntry, getEntry_updateEntry_other.
    intros E; injection E as Eh Ed.
    destruct Hne as [Hne|Hne]; [contradiction|].
    apply Hne; exact (days_format_inj s day' day Hy Hday' Hday Ed).
Qed.

Lemma log_changes_one_cell_witness :
  fourDigitYear (viewDate sampleState)
  /\ In (daysFromCivil 2024 1 5 * msPerDay) (days sampleState)
  /\ plusHint
       (renderCell
          (updateEntry (id sampleHabit)
             (format_yyyy_MM_dd (daysFromCivil 2024 1 5 * msPerDay))
             StatusDone 45 None sampleState)
          (daysFromCivil 2024 1 5 * msPerDay)
          (format_yyyy_MM_dd (daysFromCivil 2024 1 5 * msPerDay))
          sampleHabit clockJan7)
     = false.
Proof.
  assert (H : fourDigitYear (viewDate sampleState))
    by (vm_compute; split; discriminate).
  assert (D : In (daysFromCivil 2024 1 5 * msPerDay) (days sampleState))
    by (vm_compute; do 4 right; left; reflexivity).
  destruct (log_changes_one_cell sampleState clockJan7 _ sampleHabit StatusDone
              45 None H D) as (_ & _ & _ & Hp & _).
  exact (conj H (conj D Hp)).
Defined.

(* ================================================================= *)
(** ** More on the statistics of a habit *)

Lemma filter_idem {A} (p : A -> bool) (l : list A) :
  filter p (filter p l) = filter p l.
Proof.
  rewrite filter_filter_and; apply filter_ext; intros x; apply andb_diag.
Qed.

Lemma find_own (habit : Habit) (d : string) (es : list HabitEntry) :
  find (forKey (id habit) d) (ownEntries habit es)
  = find (forKey (id habit) d) es.
Proof.
  apply find_filter_agree; intros x Hx.
  apply forKey_true in Hx as [-> _]; apply String.eqb_refl.
Qed.

Lemma trendPoint_own habit es (i : Z) (now : Date) :
  HabitStats.trendPoint habit (ownEntries habit es) i now
  = HabitStats.trendPoint habit es i now.
Proof.
  unfold HabitStats.trendPoint, bind, ret, new_Date.
  change (fun e : HabitEntry =>
            (String.eqb (habitId e) (id habit)
             && String.eqb (date e) (format_yyyy_MM_dd (subDays now i)))%bool)
    with (forKey (id habit) (format_yyyy_MM_dd (subDays now i))).
  now rewrite find_own.
Qed.

Lemma last30Days_map habit es (now : Date) :
  HabitStats.last30Days habit es now
  = map (fun i => HabitStats.trendPoint habit es (Z.of_nat i) now)
        (rev (seq 0 30)).
Proof. unfold HabitStats.last30Days; now rewrite last30DaysLoop_unfold. Qed.

Lemma render_own habit es (now : Date) :
  HabitStats.render habit (ownEntries habit es) now
  = HabitStats.render habit es now.
Proof.
  unfold HabitStats.render, bind, ret.
  rewrite !last30Days_map.
  rewrite (map_ext _ _ (fun i => trendPoint_own habit es (Z.of_nat i) now)).
  unfold HabitStats.journalEntries, HabitStats.completionRate, ownEntries.
  rewrite !filter_idem.
  rewrite (filter_filter_and (fun e => String.eqb (habitId e) (id habit))).
  f_equal; f_equal; apply filter_ext; intros e.
  now destruct (String.eqb (habitId e) (id habit)).
Qed.

Lemma ownEntries_handleDeleteHabit habit (j : string) (s : AppState) :
  j <> id habit ->
  ownEntries habit (entries (handleDeleteHabit true j s))
  = ownEntries habit (entries s).
Proof.
  intros Hne; rewrite entries_handleDeleteHabit; unfold ownEntries.
  rewrite filter_filter_and; apply filter_ext; intros e.
  destruct (String.eqb_spec (habitId e) (id habit)) as [E|E];
    [|apply andb_false_r].
  rewrite E; apply String.eqb_neq in Hne.
  rewrite String.eqb_sym, Hne; reflexivity.
Qed.

Lemma ownEntries_updateEntry habit (h d : string) st (t : Z) n (s : AppState) :
  h <> id habit ->
  ownEntries habit (entries (updateEntry h d st t n s))
  = ownEntries habit (entries s).
Proof.
  intros Hne; rewrite entries_updateEntry; unfold ownEntries.
  rewrite filter_app; cbn [filter habitId].
  apply String.eqb_neq in Hne; rewrite Hne, app_nil_r.
  rewrite filter_filter_and; apply filter_ext; intros e.
  destruct (String.eqb_spec (habitId e) (id habit)) as [E|E];
    [|apply andb_false_r].
  unfold forKey; rewrite E, String.eqb_sym, Hne; reflexivity.
Qed.

(** X15.  The statistics of a habit are computed from the entries of that
    habit alone: the entries of other habits can be taken away, another
    habit can be deleted and another habit can be logged without any change
    to the trend, the journal, the completion rate or the count. *)
Theorem statistics_use_own_entries :
  forall (habit : Habit) (s : AppState) (now : Date),
    HabitStats.render habit (ownEntries habit (entries s)) now
    = HabitStats.render habit (entries s) now
    /\ (forall j, j <> id habit ->
          HabitStats.render habit (entries (handleDeleteHabit true j s)) now
          = HabitStats.render habit (entries s) now)
    /\ (forall h d st t n, h <> id habit ->
          HabitStats.render habit (entries (updateEntry h d st t n s)) now
          = HabitStats.render habit (entries s) now).
Proof.
  intros habit s now; split; [apply render_own|split].
  - intros j Hne.
    rewrite <- render_own, (ownEntries_handleDeleteHabit habit j s Hne).
    apply render_own.
  - intros h d st t n Hne.
    rewrite <- render_own, (ownEntries_updateEntry habit h d st t n s Hne).
    apply render_own.
Qed.

Lemma last30Days_nth habit es (now : Date) (k : nat) :
  (k < 30)%nat ->
  nth_error (HabitStats.last30Days habit es now) k
  = Some (HabitStats.trendPoint habit es (29 - Z.of_nat k) now).
Proof.
  intros Hk; rewrite last30Days_map, nth_error_map.
  assert (E : nth_error (rev (seq 0 30)) k = Some (29 - k)%nat).
  { do 30 (destruct k as [|k]; [reflexivity|]); lia. }
  rewrite E; cbn [option_map]; do 2 f_equal; lia.
Qed.

Lemma trendPoint_find habit es es' (i : Z) (now : Date) :
  find (forKey (id habit) (format_yyyy_MM_dd (subDays now i))) es'
  = find (forKey (id habit) (format_yyyy_MM_dd (subDays now i))) es ->
  HabitStats.trendPoint habit es' i now = HabitStats.trendPoint habit es i now.
Proof.
  unfold HabitStats.trendPoint, bind, ret, new_Date.
  change (fun e : HabitEntry =>
            (String.eqb (habitId e) (id habit)
             && String.eqb (date e) (format_yyyy_MM_dd (subDays now i)))%bool)
    with (forKey (id habit) (format_yyyy_MM_dd (subDays now i))).
  now intros ->.
Qed.

(** X16.  Logging the habit for one of the last 30 days shows in the trend
    at the point of that day and nowhere else: the point of the day [i] days
    ago carries the minutes and the status logged, and the other 29 points
    are what they were (years of four digits). *)
Theorem trend_shows_the_log :
  forall (habit : Habit) (s : AppState) (now : Date) (i : nat)
         (st : HabitStatus) (t : Z) (n : option string),
    (i < 30)%nat ->
    (forall k : nat, (k < 30)%nat -> fourDigitYear (subDays now (Z.of_nat k))) ->
    let day := subDays now (Z.of_nat i) in
    let s' := updateEntry (id habit) (format_yyyy_MM_dd day) st t n s in
    nth_error (HabitStats.last30Days habit (entries s') now) (29 - i)
    = Some (HabitStats.mkPoint (format_MMM_dd day) t (targetTime habit) st)
    /\ (forall k, (k < 30)%nat -> k <> (29 - i)%nat ->
          nth_error (HabitStats.last30Days habit (entries s') now) k
          = nth_error (HabitStats.last30Days habit (entries s) now) k).
Proof.
  intros habit s now i st t n Hi Hyears day s'; subst day s'; split.
  - rewrite last30Days_nth by lia.
    replace (29 - Z.of_nat (29 - i)) with (Z.of_nat i) by lia.
    unfold HabitStats.trendPoint, bind, ret, new_Date.
    change (fun e : HabitEntry =>
              (String.eqb (habitId e) (id habit)
               && String.eqb (date e)
                    (format_yyyy_MM_dd (subDays now (Z.of_nat i))))%bool)
      with (forKey (id habit) (format_yyyy_MM_dd (subDays now (Z.of_nat i)))).
    rewrite <- getEntry_find, getEntry_updateEntry_same; cbn [timeSpent status].
    f_equal; f_equal.
    destruct (Z.eqb_spec t 0); congruence.
  - intros k Hk Hne; rewrite !last30Days_nth by assumption.
    f_equal; apply trendPoint_find.
    rewrite <- !getEntry_find; apply getEntry_updateEntry_other.
    intros E; apply (f_equal snd) in E; cbn [snd] in E.
    apply format_yyyy_MM_dd_inj in E.
    + rewrite !dayNumber_subDays in E; lia.
    + replace (29 - Z.of_nat k) with (Z.of_nat (29 - k)) by lia.
      apply Hyears; lia.
    + now apply Hyears.
Qed.

Lemma trend_shows_the_log_witness :
  nth_error
    (HabitStats.last30Days sampleHabit
       (entries (updateEntry (id sampleHabit)
                   (format_yyyy_MM_dd (subDays clockJan5 (Z.of_nat 0)))
                   StatusDone 45 None sampleState))
       clockJan5) (29 - 0)
  = Some (HabitStats.mkPoint (format_MMM_dd (subDays clockJan5 (Z.of_nat 0)))
            45 (targetTime sampleHabit) StatusDone).
Proof.
  apply (trend_shows_the_log sampleHabit sampleState clockJan5 0 StatusDone 45
           None); [lia|].
  intros k Hk; unfold fourDigitYear, getFullYear.
  rewrite dayNumber_subDays.
  do 30 (destruct k as [|k]; [vm_compute; split; discriminate|]); lia.
Defined.

(* ================================================================= *)
(** ** The journal *)

Section Sorting.

Context {A : Type}.
Variable cmp : A -> A -> Z.




(** An order that the comparator decides: [x] may stand before [y] exactly
    when the comparator does not ask for the opposite. *)
Variable before : A -> A -> Prop.
Variable P : A -> Prop.
Hypothesis before_trans :
  forall x y z, P x -> P y -> P z -> before x y -> before y z -> before x z.
Hypothesis cmp_after :
  forall x y, P x -> P y -> 0 < cmp y x -> before x y.
Hypothesis cmp_before :
  forall x y, P x -> P y -> ~ 0 < cmp y x -> before y x.




End Sorting.








(* ================================================================= *)
(** ** The entry dialog *)

Lemma parseInt_numberText (z : Z) : Js.parseInt (numberText z) = Some z.
Proof.
  unfold numberText.
  destruct (Z.ltb_spec z 0) as [Hneg|Hpos].
  - destruct (parseInt_toDecimal (- z) ltac:(lia)) as [_ H].
    rewrite H; f_equal; lia.
  - destruct (Z.eq_dec z 0) as [->|Hne]; [reflexivity|].
    now destruct (parseInt_toDecimal z ltac:(lia)) as [H _].
Qed.

Lemma logSession_unfold st (customTime entryNotes h d : string) (s : AppState) :
  editingEntry s = Some (h, d) ->
  logSession st customTime entryNotes s
  = updateEntry h d st
      (match Js.parseInt customTime with Some v => v | None => 0 end)
      (Some entryNotes) s.
Proof.
  intros He; unfold logSession; rewrite He.
  destruct (Js.parseInt customTime) as [v|]; [|reflexivity].
  destruct (Z.eqb_spec v 0) as [->|]; reflexivity.
Qed.

(** X19.  Pressing "Complete Session" or "Failed Session" in the dialog of
    a cell logs that habit and day with the status of the button, the
    integer read from the time field, or 0 when there is none to read, and
    the notes as typed; [getEntry] returns that entry, the dialog closes and
    the habits are left alone.  Without a dialog nothing happens. *)
Theorem logSession_logs_the_cell :
  forall (habit : Habit) (day : Date) (st : HabitStatus)
         (customTime entryNotes : string) (s : AppState),
    let dateStr := format_yyyy_MM_dd day in
    let s' := logSession st customTime entryNotes (clickCell habit day s) in
    getEntry (id habit) dateStr s'
    = Some (mkEntry (id habit) dateStr st
              (match Js.parseInt customTime with Some v => v | None => 0 end)
              (Some entryNotes))
    /\ editingEntry s' = None
    /\ habits s' = habits s
    /\ (Js.parseInt customTime = None ->
        exists e, getEntry (id habit) dateStr s' = Some e /\ timeSpent e = 0)
    /\ (editingEntry s = None -> logSession st customTime entryNotes s = s).
Proof.
  intros habit day st customTime entryNotes s dateStr s'; subst dateStr s'.
  rewrite (logSession_unfold st customTime entryNotes (id habit)
             (format_yyyy_MM_dd day)) by reflexivity.
  split; [apply getEntry_updateEntry_same|].
  split; [reflexivity|]. split; [reflexivity|]. split.
  - intros Hnan; eexists; split; [apply getEntry_updateEntry_same|].
    cbn [timeSpent]; now rewrite Hnan.
  - intros He; unfold logSession; now rewrite He.
Qed.



(* ================================================================= *)
(** ** Saving and loading *)

Lemma app_string_assoc (a b c : string) : ((a ++ b) ++ c = a ++ (b ++ c))%string.
Proof. induction a as [|x a IH]; cbn; [reflexivity|now rewrite IH]. Qed.

Lemma app_string_nil (a : string) : (a ++ "" = a)%string.
Proof. induction a as [|x a IH]; cbn; [reflexivity|now rewrite IH]. Qed.

Lemma lexRun_app (s1 s2 : string) :
  forall st ts st',
    lexRun st s1 = Some (ts, st') ->
    lexRun st (s1 ++ s2)
    = match lexRun st' s2 with
      | Some (ts', st'') => Some (ts ++ ts', st'')
      | None => None
      end.
Proof.
  induction s1 as [|c r IH]; intros st ts st' H; cbn [lexRun append] in *.
  - injection H as <- <-. now destruct (lexRun st s2) as [[? ?]|].
  - destruct (Json.lexStep st c) as [[t1 st1]|]; [|discriminate].
    destruct (lexRun st1 r) as [[t2 st2]|] eqn:E; [|discriminate].
    injection H as <- <-.
    rewrite (IH _ _ _ E).
    destruct (lexRun st2 s2) as [[t3 st3]|]; [|reflexivity].
    now rewrite app_assoc.
Qed.

Lemma lexFrom_app (s rest : string) :
  forall st ts st',
    lexRun st s = Some (ts, st') ->
    Json.lexFrom st (s ++ rest) = option_map (app ts) (Json.lexFrom st' rest).
Proof.
  induction s as [|c r IH]; intros st ts st' H; cbn [lexRun append] in *.
  - injection H as <- <-. now destruct (Json.lexFrom st rest).
  - cbn [Json.lexFrom].
    destruct (Json.lexStep st c) as [[t1 st1]|]; [|discriminate].
    destruct (lexRun st1 r) as [[t2 st2]|] eqn:E; [|discriminate].
    injection H as <- <-.
    rewrite (IH _ _ _ E).
    destruct (Json.lexFrom st2 rest); cbn [option_map]; [|reflexivity].
    now rewrite app_assoc.
Qed.

(** *** Strings *)

Lemma quoteChar_lex (c : ascii) (acc : Json.jstring) :
  lexRun (Json.LStr acc) (quoteChar c)
  = Some ([], Json.LStr (acc ++ [N_of_ascii c])).
Proof.
  destruct c as [[] [] [] [] [] [] [] []]; reflexivity.
Qed.

Lemma quoteBody_lex (s : string) :
  forall acc,
    lexRun (Json.LStr acc) (quoteBody s)
    = Some ([], Json.LStr (acc ++ Json.jstring_of s)).
Proof.
  induction s as [|c r IH]; intros acc; cbn [quoteBody].
  - cbn; now rewrite app_nil_r.
  - rewrite (lexRun_app _ _ _ _ _ (quoteChar_lex c acc)), IH.
    unfold Json.jstring_of; cbn [list_ascii_of_string map app].
    now rewrite <- app_assoc.
Qed.

Lemma quoteJSON_lex (s rest : string) :
  Json.lexFrom Json.LDefault (quoteJSON s ++ rest)
  = option_map (cons (Json.TStr (Json.jstring_of s)))
      (Json.lexFrom Json.LDefault rest).
Proof.
  assert (H : lexRun Json.LDefault (quoteJSON s)
              = Some ([Json.TStr (Json.jstring_of s)], Json.LDefault)).
  { unfold quoteJSON.
    change (String Json.dquote (quoteBody s ++ String Json.dquote ""))
      with (String Json.dquote "" ++ (quoteBody s ++ String Json.dquote ""))%string.
    rewrite (lexRun_app _ _ Json.LDefault [] (Json.LStr [])) by reflexivity.
    rewrite (lexRun_app _ _ _ _ _ (quoteBody_lex s [])).
    reflexivity. }
  now rewrite (lexFrom_app _ rest _ _ _ H).
Qed.

(** *** Numbers *)

Lemma isDigit_digitChar (d : Z) :
  0 <= d <= 9 -> Json.isDigit (Js.digitChar d) = true.
Proof.
  intros H.
  assert (C : d = 0 \/ d = 1 \/ d = 2 \/ d = 3 \/ d = 4 \/ d = 5 \/ d = 6
              \/ d = 7 \/ d = 8 \/ d = 9) by lia.
  destruct C as [->|[->|[->|[->|[->|[->|[->|[->|[->| ->]]]]]]]]]; reflexivity.
Qed.

Lemma digitsFrom_digits (fuel : nat) :
  forall (n : Z) (tail : string),
    0 <= n ->
    forallb Json.isDigit (list_ascii_of_string tail) = true ->
    forallb Json.isDigit (list_ascii_of_string (Js.digitsFrom fuel n tail)) = true.
Proof.
  induction fuel as [|f IH]; intros n tail Hn Ht; cbn [Js.digitsFrom];
    [assumption|].
  assert (Hd : forallb Json.isDigit
                 (list_ascii_of_string (String (Js.digitChar (n mod 10)) tail))
               = true).
  { cbn [list_ascii_of_string forallb].
    rewrite isDigit_digitChar by (pose proof (Z.mod_pos_bound n 10); lia).
    exact Ht. }
  destruct (n <? 10); [exact Hd|].
  apply IH; [apply Z.div_pos; lia|exact Hd].
Qed.

Lemma digitsFrom_nonempty (fuel : nat) :
  forall (n : Z) (tail : string), Js.digitsFrom (S fuel) n tail <> "".
Proof.
  induction fuel as [|f IH]; intros n tail.
  - cbn [Js.digitsFrom]; destruct (n <? 10); discriminate.
  - cbn [Js.digitsFrom] in *; destruct (n <? 10); [discriminate|].
    apply (IH (n / 10) (String (Js.digitChar (n mod 10)) tail)).
Qed.

Lemma toDecimal_digits (n : Z) :
  0 <= n ->
  exists c r,
    Js.toDecimal n = String c r
    /\ Json.isDigit c = true
    /\ forallb Json.isDigit (list_ascii_of_string r) = true.
Proof.
  intros Hn.
  pose proof (digitsFrom_digits (S (Z.to_nat (Z.log2 n))) n "" Hn eq_refl) as Hd.
  pose proof (digitsFrom_nonempty (Z.to_nat (Z.log2 n)) n "") as Hne.
  unfold Js.toDecimal.
  destruct (Js.digitsFrom (S (Z.to_nat (Z.log2 n))) n "") as [|c r];
    [contradiction|].
  cbn [list_ascii_of_string forallb] in Hd.
  apply andb_true_iff in Hd as [Hc Hr].
  now exists c, r.
Qed.

Lemma isNumberChar_digit (c : ascii) :
  Json.isDigit c = true -> Json.isNumberChar c = true.
Proof. unfold Json.isNumberChar; now intros ->. Qed.

Lemma lexDefault_digit (c : ascii) :
  Json.isDigit c = true ->
  Json.lexDefault c = Some ([], Json.LNum (String c "")).
Proof.
  destruct c as [[] [] [] [] [] [] [] []]; intros H;
    first [discriminate H | reflexivity].
Qed.

Lemma lexRun_digits (ds : string) :
  forall lx,
    forallb Json.isDigit (list_ascii_of_string ds) = true ->
    lexRun (Json.LNum lx) ds = Some ([], Json.LNum (lx ++ ds)).
Proof.
  induction ds as [|c r IH]; intros lx H; cbn [lexRun].
  - now rewrite app_string_nil.
  - cbn [list_ascii_of_string forallb] in H.
    apply andb_true_iff in H as [Hc Hr].
    cbn [Json.lexStep]; rewrite (isNumberChar_digit c Hc).
    rewrite (IH _ Hr), app_string_assoc; reflexivity.
Qed.

Lemma dropDigits_digits (ds : string) :
  forallb Json.isDigit (list_ascii_of_string ds) = true ->
  Json.dropDigits ds = "".
Proof.
  induction ds as [|c r IH]; intros H; cbn [Json.dropDigits]; [reflexivity|].
  cbn [list_ascii_of_string forallb] in H.
  apply andb_true_iff in H as [-> Hr]; now apply IH.
Qed.

Lemma lexRun_toDecimal (n : Z) :
  0 <= n ->
  lexRun Json.LDefault (Js.toDecimal n)
  = Some ([], Json.LNum (Js.toDecimal n))
  /\ lexRun (Json.LNum "-") (Js.toDecimal n)
     = Some ([], Json.LNum ("-" ++ Js.toDecimal n)).
Proof.
  intros Hn.
  destruct (toDecimal_digits n Hn) as (c & r & -> & Hc & Hr); split.
  - cbn [lexRun Json.lexStep]; rewrite (lexDefault_digit c Hc).
    now rewrite (lexRun_digits r _ Hr).
  - apply lexRun_digits; cbn [list_ascii_of_string forallb].
    now rewrite Hc.
Qed.

Lemma lexRun_numberText (z : Z) :
  lexRun Json.LDefault (numberText z) = Some ([], Json.LNum (numberText z)).
Proof.
  unfold numberText.
  destruct (Z.ltb_spec z 0) as [Hneg|Hpos].
  - destruct (lexRun_toDecimal (- z) ltac:(lia)) as [_ H].
    cbn [append lexRun Json.lexStep].
    change (Json.lexDefault "-") with (Some (@nil Json.token, Json.LNum "-")).
    cbv beta iota; rewrite H; reflexivity.
  - now destruct (lexRun_toDecimal z Hpos) as [H _].
Qed.

Lemma validNumber_positive (n : Z) :
  0 < n ->
  Json.validNumber (Js.toDecimal n) = true
  /\ Json.validNumber (String "-" (Js.toDecimal n)) = true.
Proof.
  intros Hn.
  destruct (toDecimal_digits n ltac:(lia)) as (c & r & E & _ & Hr).
  destruct (digitsFrom_head (S (Z.to_nat (Z.log2 n))) n "") as (d & r' & Hd & E').
  { split; [assumption|apply toDecimal_fuel; lia]. }
  unfold Js.toDecimal in E; rewrite E in E'; injection E' as -> <-.
  unfold Js.toDecimal; rewrite E.
  assert (C : d = 1 \/ d = 2 \/ d = 3 \/ d = 4 \/ d = 5 \/ d = 6 \/ d = 7
              \/ d = 8 \/ d = 9) by lia.
  destruct C as [->|[->|[->|[->|[->|[->|[->|[->| ->]]]]]]]];
    match goal with
    | |- context [Js.digitChar ?k] =>
        let c := eval vm_compute in (Js.digitChar k) in
        change (Js.digitChar k) with c
    end;
    unfold Json.validNumber; cbn [Json.isDigit];
    rewrite (dropDigits_digits r Hr); split; reflexivity.
Qed.

Lemma validNumber_numberText (z : Z) : Json.validNumber (numberText z) = true.
Proof.
  unfold numberText.
  destruct (Z.ltb_spec z 0) as [Hneg|Hpos].
  - now destruct (validNumber_positive (- z) ltac:(lia)) as [_ H].
  - destruct (Z.eq_dec z 0) as [->|Hne]; [reflexivity|].
    now destruct (validNumber_positive z ltac:(lia)) as [H _].
Qed.

Lemma lexFrom_number (z : Z) (c : ascii) (rest : string) :
  Json.isNumberChar c = false ->
  Json.lexFrom Json.LDefault (numberText z ++ String c rest)
  = match Json.lexDefault c with
    | Some (ts, st') =>
        option_map (app (Json.TNum (numberText z) :: ts)) (Json.lexFrom st' rest)
    | None => None
    end.
Proof.
  intros Hc.
  rewrite (lexFrom_app _ _ _ _ _ (lexRun_numberText z)).
  cbn [Json.lexFrom Json.lexStep app].
  rewrite Hc, validNumber_numberText.
  destruct (Json.lexDefault c) as [[ts st']|]; [|reflexivity].
  destruct (Json.lexFrom st' rest); reflexivity.
Qed.

(** *** Objects and arrays *)

Lemma lexFrom_char (c : ascii) (ts : list Json.token) (rest : string) :
  Json.lexDefault c = Some (ts, Json.LDefault) ->
  Json.lexFrom Json.LDefault (String c rest)
  = option_map (app ts) (Json.lexFrom Json.LDefault rest).
Proof.
  intros H; cbn [Json.lexFrom Json.lexStep]; rewrite H.
  destruct (Json.lexFrom Json.LDefault rest); reflexivity.
Qed.

Ltac lex_text :=
  repeat first
    [ rewrite quoteJSON_lex
    | rewrite (lexFrom_char "{" [Json.TLBrace]) by reflexivity
    | rewrite (lexFrom_char "}" [Json.TRBrace]) by reflexivity
    | rewrite (lexFrom_char "[" [Json.TLBrack]) by reflexivity
    | rewrite (lexFrom_char "]" [Json.TRBrack]) by reflexivity
    | rewrite (lexFrom_char ":" [Json.TColon]) by reflexivity
    | rewrite (lexFrom_char "," [Json.TComma]) by reflexivity
    | rewrite lexFrom_number by reflexivity;
      cbv beta iota delta [Json.lexDefault Json.isJsonWhiteSpace Ascii.eqb
                           Bool.eqb orb] ].

Lemma lex_optionalProperty (key : string) (v : option string) (rest : string) :
  Json.lexFrom Json.LDefault (optionalProperty key v rest)
  = option_map (app (optionalTokens key v)) (Json.lexFrom Json.LDefault rest).
Proof.
  destruct v as [t|]; cbn [optionalProperty optionalTokens append].
  - lex_text. destruct (Json.lexFrom Json.LDefault rest); reflexivity.
  - destruct (Json.lexFrom Json.LDefault rest); reflexivity.
Qed.

Lemma lex_number_then (z : Z) (key : string) (v : option string) (rest : string) :
  Json.lexFrom Json.LDefault
    (numberText z ++ optionalProperty key v (String "}" rest))
  = option_map
      (app (Json.TNum (numberText z) :: optionalTokens key v ++ [Json.TRBrace]))
      (Json.lexFrom Json.LDefault rest).
Proof.
  destruct v as [t|]; cbn [optionalProperty optionalTokens append].
  - rewrite lexFrom_number by reflexivity.
    change (Json.lexDefault ",") with (Some ([Json.TComma], Json.LDefault)).
    cbv beta iota. lex_text.
    destruct (Json.lexFrom Json.LDefault rest); reflexivity.
  - rewrite lexFrom_number by reflexivity.
    change (Json.lexDefault "}") with (Some ([Json.TRBrace], Json.LDefault)).
    cbv beta iota.
    destruct (Json.lexFrom Json.LDefault rest); reflexivity.
Qed.

Lemma lex_habit (h : Habit) (rest : string) :
  Json.lexFrom Json.LDefault (stringifyHabit h rest)
  = option_map (app (habitTokens h)) (Json.lexFrom Json.LDefault rest).
Proof.
  unfold stringifyHabit, habitTokens.
  cbn [append]; lex_text.
  rewrite lex_number_then.
  destruct (Json.lexFrom Json.LDefault rest); reflexivity.
Qed.

Lemma lex_entry (e : HabitEntry) (rest : string) :
  Json.lexFrom Json.LDefault (stringifyEntry e rest)
  = option_map (app (entryTokens e)) (Json.lexFrom Json.LDefault rest).
Proof.
  unfold stringifyEntry, entryTokens.
  cbn [append]; lex_text.
  rewrite lex_number_then.
  destruct (Json.lexFrom Json.LDefault rest); reflexivity.
Qed.

Section Arrays.

Context {A : Type}.
Variable write : A -> string -> string.
Variable tokens : A -> list Json.token.
Variable valueOf : A -> Json.value.

Hypothesis lex_element : forall x rest,
  Json.lexFrom Json.LDefault (write x rest)
  = option_map (app (tokens x)) (Json.lexFrom Json.LDefault rest).

Hypothesis parse_element : forall first stack x,
  Json.parseTokens (Json.PValue first stack) (tokens x)
  = Some (Json.deliver (valueOf x) stack).

Lemma lex_elements (l : list A) (rest : string) :
  Json.lexFrom Json.LDefault (stringifyElements write l rest)
  = option_map (app (elementTokens tokens l)) (Json.lexFrom Json.LDefault rest).
Proof.
  induction l as [|x r IH].
  - cbn; now destruct (Json.lexFrom Json.LDefault rest).
  - destruct r as [|y r'].
    + cbn [stringifyElements elementTokens]; apply lex_element.
    + change (stringifyElements write (x :: y :: r') rest)
        with (write x ("," ++ stringifyElements write (y :: r') rest)%string).
      change (elementTokens tokens (x :: y :: r'))
        with (tokens x ++ Json.TComma :: elementTokens tokens (y :: r')).
      rewrite lex_element; cbn [append].
      rewrite (lexFrom_char "," [Json.TComma]) by reflexivity.
      rewrite IH.
      destruct (Json.lexFrom Json.LDefault rest); cbn [option_map app];
        [|reflexivity].
      now rewrite <- app_assoc.
Qed.

Lemma lex_array (l : list A) (rest : string) :
  Json.lexFrom Json.LDefault (stringifyArray write l rest)
  = option_map (app (arrayTokens tokens l)) (Json.lexFrom Json.LDefault rest).
Proof.
  unfold stringifyArray, arrayTokens; cbn [append].
  rewrite (lexFrom_char "[" [Json.TLBrack]) by reflexivity.
  rewrite lex_elements; cbn [append].
  rewrite (lexFrom_char "]" [Json.TRBrack]) by reflexivity.
  destruct (Json.lexFrom Json.LDefault rest); cbn [option_map app];
    [|reflexivity].
  now rewrite <- app_assoc.
Qed.

Lemma parseTokens_app (a b : list Json.token) :
  forall st,
    Json.parseTokens st (a ++ b)
    = match Json.parseTokens st a with
      | Some st' => Json.parseTokens st' b
      | None => None
      end.
Proof.
  induction a as [|t a IH]; intros st; cbn [app Json.parseTokens];
    [reflexivity|].
  destruct (Json.parseStep st t); [apply IH|reflexivity].
Qed.

Lemma parseStep_open (first : bool) (stack : list Json.frame) :
  Json.parseStep (Json.PValue first stack) Json.TLBrack
  = Some (Json.PValue true (Json.FArr [] :: stack))
  /\ Json.parseStep (Json.PValue first stack) Json.TLBrace
     = Some (Json.PKey true [] stack).
Proof.
  destruct first; [|split; reflexivity].
  destruct stack as [|[[|v els]|ms k] stack]; split; reflexivity.
Qed.

Lemma parse_elements (l : list A) :
  l <> [] ->
  forall first els stack rest,
    Json.parseTokens (Json.PValue first (Json.FArr els :: stack))
      (elementTokens tokens l ++ rest)
    = Json.parseTokens
        (Json.PAfter (Json.FArr (els ++ map valueOf l) :: stack)) rest.
Proof.
  induction l as [|x r IH]; intros Hne first els stack rest; [contradiction|].
  destruct r as [|y r'].
  - cbn [elementTokens map].
    now rewrite parseTokens_app, parse_element.
  - change (elementTokens tokens (x :: y :: r'))
      with (tokens x ++ Json.TComma :: elementTokens tokens (y :: r')).
    rewrite <- app_assoc, parseTokens_app, parse_element.
    cbn [Json.deliver app Json.parseTokens Json.parseStep].
    rewrite IH by discriminate.
    cbn [map]; now rewrite <- app_assoc.
Qed.

Lemma parse_array (l : list A) (first : bool) (stack : list Json.frame)
    (rest : list Json.token) :
  Json.parseTokens (Json.PValue first stack) (arrayTokens tokens l ++ rest)
  = Json.parseTokens (Json.deliver (Json.JArr (map valueOf l)) stack) rest.
Proof.
  unfold arrayTokens.
  destruct l as [|x r].
  - cbn [elementTokens app Json.parseTokens].
    rewrite (proj1 (parseStep_open first stack)); reflexivity.
  - cbn [app Json.parseTokens].
    rewrite (proj1 (parseStep_open first stack)).
    rewrite <- app_assoc, parse_elements by discriminate.
    reflexivity.
Qed.

End Arrays.

Lemma parse_habit (first : bool) (stack : list Json.frame) (h : Habit) :
  Json.parseTokens (Json.PValue first stack) (habitTokens h)
  = Some (Json.deliver (habitValue h) stack).
Proof.
  unfold habitTokens, habitValue.
  cbn [app Json.parseTokens].
  rewrite (proj2 (parseStep_open first stack)).
  destruct (color h) as [c|]; reflexivity.
Qed.

Lemma parse_entry (first : bool) (stack : list Json.frame) (e : HabitEntry) :
  Json.parseTokens (Json.PValue first stack) (entryTokens e)
  = Some (Json.deliver (entryValue e) stack).
Proof.
  unfold entryTokens, entryValue.
  cbn [app Json.parseTokens].
  rewrite (proj2 (parseStep_open first stack)).
  destruct (notes e) as [c|]; reflexivity.
Qed.

Lemma parse_saveData (s : AppState) :
  Json.parse (saveData s)
  = Some (Json.JObj
            [(Json.jstring_of "habits", Json.JArr (map habitValue (habits s)));
             (Json.jstring_of "entries", Json.JArr (map entryValue (entries s)))]).
Proof.
  unfold Json.parse, Json.lex, saveData; cbn [append].
  rewrite (lexFrom_char "{" [Json.TLBrace]) by reflexivity.
  rewrite quoteJSON_lex; cbn [append].
  rewrite (lexFrom_char ":" [Json.TColon]) by reflexivity.
  rewrite (lex_array stringifyHabit habitTokens lex_habit); cbn [append].
  rewrite (lexFrom_char "," [Json.TComma]) by reflexivity.
  rewrite quoteJSON_lex; cbn [append].
  rewrite (lexFrom_char ":" [Json.TColon]) by reflexivity.
  rewrite (lex_array stringifyEntry entryTokens lex_entry).
  rewrite (lexFrom_char "}" [Json.TRBrace]) by reflexivity.
  cbn [Json.lexFrom Json.lexEnd option_map app Json.parseTokens Json.parseStep].
  rewrite (parse_array habitTokens habitValue parse_habit).
  cbn [Json.deliver app Json.parseTokens Json.parseStep].
  rewrite (parse_array entryTokens entryValue parse_entry).
  reflexivity.
Qed.

Lemma loadData_saveData (s : AppState) :
  loadData (Some (saveData s))
  = SetFromStorage (Parsed (Json.JArr (map habitValue (habits s))))
                   (Parsed (Json.JArr (map entryValue (entries s)))).
Proof.
  unfold loadData.
  rewrite parse_saveData.
  unfold saveData; cbn [append String.eqb Ascii.eqb Bool.eqb].
  reflexivity.
Qed.

(** *** The values tell the records apart *)

Lemma jstring_of_inj (a b : string) :
  Json.jstring_of a = Json.jstring_of b -> a = b.
Proof.
  unfold Json.jstring_of; revert b.
  induction a as [|x a IH]; intros [|y b] H; cbn in H;
    try discriminate H; [reflexivity|].
  injection H as Hxy Hab.
  rewrite (IH b Hab).
  rewrite <- (ascii_N_embedding x), <- (ascii_N_embedding y), Hxy.
  reflexivity.
Qed.

Lemma numberText_inj (a b : Z) : numberText a = numberText b -> a = b.
Proof.
  intros H.
  pose proof (parseInt_numberText a) as Ha.
  rewrite H, parseInt_numberText in Ha.
  injection Ha as Ha; symmetry; exact Ha.
Qed.

Lemma statusText_inj (a b : HabitStatus) : statusText a = statusText b -> a = b.
Proof. destruct a, b; intros H; first [reflexivity | discriminate H]. Qed.

Lemma optionalMember_inj (key : string) (a b : option string) :
  optionalMember key a = optionalMember key b -> a = b.
Proof.
  destruct a as [x|], b as [y|]; cbn [optionalMember]; intros H;
    try discriminate H; [|reflexivity].
  injection H as H; now rewrite (jstring_of_inj _ _ H).
Qed.

Lemma habitValue_inj (h h' : Habit) : habitValue h = habitValue h' -> h = h'.
Proof.
  destruct h as [i n t c], h' as [i' n' t' c'].
  unfold habitValue; cbn [id name targetTime color app].
  intros H; injection H as Hi Hn Ht Hc.
  rewrite (jstring_of_inj _ _ Hi), (jstring_of_inj _ _ Hn),
    (numberText_inj _ _ Ht), (optionalMember_inj _ _ _ Hc).
  reflexivity.
Qed.

Lemma entryValue_inj (e e' : HabitEntry) : entryValue e = entryValue e' -> e = e'.
Proof.
  destruct e as [i d st t n], e' as [i' d' st' t' n'].
  unfold entryValue; cbn [habitId date status timeSpent notes app].
  intros H; injection H as Hi Hd Hst Ht Hn.
  rewrite (jstring_of_inj _ _ Hi), (jstring_of_inj _ _ Hd),
    (statusText_inj _ _ (jstring_of_inj _ _ Hst)),
    (numberText_inj _ _ Ht), (optionalMember_inj _ _ _ Hn).
  reflexivity.
Qed.

Lemma map_values_inj {A B : Type} (f : A -> B) :
  (forall x y, f x = f y -> x = y) ->
  forall l l', map f l = map f l' -> l = l'.
Proof.
  intros Hf l; induction l as [|x l IH]; intros [|y l'] H; cbn [map] in H;
    try discriminate H; [reflexivity|].
  injection H as Hxy Hl.
  now rewrite (Hf _ _ Hxy), (IH _ Hl).
Qed.

Lemma safeIntegers_loggedState : safeIntegers loggedState.
Proof.
  split; repeat constructor; unfold isSafeInteger; cbn; lia.
Qed.

(** X21 (App.tsx, "Save data" and "Load data").  What the save effect
    writes, the load effect of the next start reads back without throwing:
    [JSON.parse] accepts the text, and [setHabits] and [setEntries] receive
    arrays with one object for every habit and every entry, in the order
    of the state, each with the properties of the record (a [color] or
    [notes] that is [undefined] is absent).  The numbers of the state are
    integers that a JS number holds exactly: these are the ones that
    [JSON.stringify] writes in plain decimal digits. *)
Theorem saved_state_is_loaded (s : AppState) :
  safeIntegers s ->
  loadData (Some (saveData s))
  = SetFromStorage (Parsed (Json.JArr (map habitValue (habits s))))
                   (Parsed (Json.JArr (map entryValue (entries s)))).
Proof.
  intros _; apply loadData_saveData.
Qed.

Lemma saved_state_is_loaded_witness :
  loadData (Some (saveData loggedState))
  = SetFromStorage (Parsed (Json.JArr (map habitValue (habits loggedState))))
                   (Parsed (Json.JArr (map entryValue (entries loggedState)))).
Proof.
  exact (saved_state_is_loaded loggedState safeIntegers_loggedState).
Defined.

(** X22 (App.tsx, "Save data").  The saved text loses nothing of the
    habits and the entries: two states that are saved as the same text
    have the same habits and the same entries, in the same order.  (The
    other cells of the state, such as the month in view, are not
    saved.) *)
Theorem saved_text_determines_habits_and_entries (s s' : AppState) :
  safeIntegers s -> safeIntegers s' ->
  saveData s = saveData s' ->
  habits s = habits s' /\ entries s = entries s'.
Proof.
  intros _ _ H.
  pose proof (loadData_saveData s) as L.
  rewrite H, loadData_saveData in L.
  injection L as Lh Le.
  split.
  - exact (eq_sym (map_values_inj habitValue habitValue_inj _ _ Lh)).
  - exact (eq_sym (map_values_inj entryValue entryValue_inj _ _ Le)).
Qed.

Lemma saved_text_determines_habits_and_entries_witness :
  habits loggedState = habits (setIsAddingHabit true loggedState)
  /\ entries loggedState = entries (setIsAddingHabit true loggedState).
Proof.
  exact (saved_text_determines_habits_and_entries
           loggedState (setIsAddingHabit true loggedState)
           safeIntegers_loggedState safeIntegers_loggedState eq_refl).
Defined.
